(** * Florence-2 fine-tuning script ([train.py]): a shallow embedding

    The script splits three parallel sequences into a training and a
    validation part, wraps them in batch loaders and runs [train_model]:
    per epoch a training pass, a validation pass and a checkpoint.

    The model, the processor, the optimizer and the learning-rate
    scheduler come from external libraries.  They appear here as
    interfaces (type classes) whose operations are the calls the script
    makes; the control flow, the counters, the accumulators and the
    printed values are those of the script.  Every call that has an
    effect outside the Python variables is recorded in a trace of
    events, so that what the script did can be read back. *)

From Stdlib Require Import String Ascii DecimalString DecimalNat.
From Stdlib Require Import List Arith ZArith QArith Lia Lqa Bool Permutation Floats.
Import ListNotations.

Local Open Scope nat_scope.
Local Open Scope list_scope.

(** ** Python numbers

    [train_loss = 0] starts as an [int]; [train_loss += loss.item()] adds a
    [float] to it; [train_loss / len(train_loader)] is a true division.
    Floats are IEEE binary64, as Rocq's primitive floats. *)
Module Py.

Inductive exn :=
| ZeroDivisionError
| ArrowInvalid.

Inductive num :=
| PyInt (n : Z)
| PyFloat (f : float).

(** [float(n)]: the nearest binary64, ties to even.  CPython raises
    [OverflowError] from 2^1024 on; the integers converted in this script
    are the literal [0] and loader lengths, and the conversion returns an
    infinity out there. *)
Definition int_to_float (n : Z) : float :=
  SF2Prim (binary_normalize FloatOps.prec FloatOps.emax n 0 false).

Definition to_float (x : num) : float :=
  match x with
  | PyInt n => int_to_float n
  | PyFloat f => f
  end.

(** [x + y] *)
Definition add (x y : num) : num :=
  match x, y with
  | PyInt a, PyInt b => PyInt (a + b)
  | _, _ => PyFloat (to_float x + to_float y)%float
  end.

Definition is_zero (x : num) : bool :=
  match x with
  | PyInt n => (n =? 0)%Z
  | PyFloat f => PrimFloat.is_zero f
  end.

(** [x / y]: a zero divisor raises, otherwise the result is a float (for
    two ints CPython rounds the exact quotient once, which is what the
    quotient of the converted operands is up to 2^53). *)
Definition truediv (x y : num) : exn + float :=
  if is_zero y then inl ZeroDivisionError
  else inr (to_float x / to_float y)%float.

(** The builtin [sum]: a left fold from the int [0]. *)
Definition sum (l : list num) : num := fold_left add l (PyInt 0).

End Py.

(** ** The split (train.py, lines 32-34) *)

(** [data[:k]] and [data[k:]] for [0 <= k]. *)
Definition slice_to {A} (k : nat) (data : list A) : list A := firstn k data.
Definition slice_from {A} (k : nat) (data : list A) : list A := skipn k data.

Definition data_split {A} (data : list A) : list A * list A :=
  let split_index := length data - length data / 10 in
  (slice_to split_index data, slice_from split_index data).

(** ** Datasets and loaders (train.py, lines 46-68) *)

Section Loader.
Context {A : Type}.

(** The batch sampler: the order is cut into runs of [batch_size], the last
    one shorter when the length is not a multiple ([drop_last] is off). *)
Fixpoint chunks (fuel batch_size : nat) (l : list A) : list (list A) :=
  match fuel, l with
  | 0, _ => []
  | _, [] => []
  | S fuel', _ => firstn batch_size l :: chunks fuel' batch_size (skipn batch_size l)
  end.

(** [DataLoader(dataset, batch_size=..., shuffle=...)].  The constructor
    refuses a batch size below one, so the field is a positive number. *)
Record DataLoader := {
  dataset : list A;
  batch_size : positive;
  shuffle : bool
}.

(** [len(loader)]: the number of batches, the length divided by the batch
    size, rounded up. *)
Definition loader_len (ld : DataLoader) : nat :=
  (length (dataset ld) + Pos.to_nat (batch_size ld) - 1) / Pos.to_nat (batch_size ld).

(** The random sampler behind [shuffle=True]: [randperm k] is the order it
    draws at the [k]-th iteration over a loader, a rearrangement of the
    dataset. *)
Class Sampler := {
  randperm : nat -> list A -> list A;
  randperm_perm : forall k l, Permutation (randperm k l) l
}.

(** One iteration over the loader, the [k]-th one. *)
Definition loader_iter `{Sampler} (k : nat) (ld : DataLoader) : list (list A) :=
  let order := if shuffle ld then randperm k (dataset ld) else dataset ld in
  chunks (length order) (Pos.to_nat (batch_size ld)) order.

End Loader.
Arguments DataLoader A : clear implicits.
Arguments Sampler A : clear implicits.

(** [Dataset.from_dict]: one row per position of the three columns, which
    must have one length. *)
Definition from_dict {I} (prompts answers : list string) (images : list I)
  : Py.exn + list (string * string * I) :=
  if (length prompts =? length answers) && (length answers =? length images)
  then inr (combine (combine prompts answers) images)
  else inl Py.ArrowInvalid.

(** Modelled from the spec: [GrabberDataset] (data.py, not among the
    sources) wraps the rows of a dataset: its length is their count and
    its item [i] is the prompt, the answer and the decoded image of row
    [i]. *)
Definition GrabberDataset {I} (rows : list (string * string * I))
  : list (string * string * I) := rows.

(** ** The external collaborators *)

(** Token-id tensors: one row per sample. *)
Definition Tokens := list (list Z).

(** [outputs.loss]: a scalar tensor; [.item()] reads its value and
    [.backward()] adds its gradient to the accumulated ones. *)
Record Loss {Grads : Type} := {
  item : float;
  gradient : Grads
}.
Arguments Loss Grads : clear implicits.

(** The captioning model: its forward pass with labels and its generation
    method, both functions of the parameters, the train/eval mode and the
    inputs. *)
Class Model := {
  Params : Type;
  Grads : Type;
  Pixels : Type;
  forward : Params -> bool -> Tokens -> Pixels -> Tokens -> Loss Grads;
  generate : Params -> bool -> Tokens -> Pixels -> nat -> nat -> Tokens;
  no_grads : Grads;
  accumulate : Grads -> Grads -> Grads;
  (** [pixel_values.shape[-2], pixel_values.shape[-1]] *)
  shape_hw : Pixels -> nat * nat
}.

(** [inputs]: the fields of the encoded batch that the script reads. *)
Record Inputs `{Model} := {
  input_ids : Tokens;
  pixel_values : Pixels
}.

(** The processor: text and image encoding, the text-only tokenizer,
    decoding and post-processing. *)
Class Processor `{Model} := {
  Image : Type;
  encode : list string -> list Image -> Inputs;
  tokenize : string -> list Z;
  pad_token_id : Z;
  batch_decode : Tokens -> bool -> list string;
  (** the returned mapping, read at a key *)
  post_process_generation : string -> string -> nat * nat -> string -> string
}.

(** [AdamW]: one update of the parameters from the accumulated gradients
    at the current rate. *)
Class Optimizer `{Model} := {
  OptState : Type;
  adamw_init : Params -> OptState;
  adamw_step : Q -> Params -> Grads -> OptState -> Params * OptState
}.

(** The value the loss function ignores in a label tensor. *)
Definition ignore_index : Z := (-100)%Z.

(** Modelled from the spec: the text-only tokenizer is external; with
    [padding=True] every row is filled up to the longest row of the batch
    with the encoder's default pad token. *)
Definition pad_to (pad : Z) (width : nat) (row : list Z) : list Z :=
  row ++ repeat pad (width - length row).

Definition longest (rows : list (list Z)) : nat :=
  fold_right (fun r m => Nat.max (length r) m) 0 rows.

Definition tokenizer `{Processor} (text : list string) : Tokens :=
  let rows := map tokenize text in
  map (pad_to pad_token_id (longest rows)) rows.

(** Modelled from the spec: the learning-rate rule of the external
    "linear" scheduler, linear decay from the configured rate to zero over
    the training-step budget after an optional warmup; rates are exact
    rationals, the rounding of floats is left out. *)
Definition qmax (a b : Q) : Q := if Qle_bool a b then b else a.

Definition lr_lambda (num_warmup_steps num_training_steps current_step : nat) : Q :=
  if current_step <? num_warmup_steps
  then inject_Z (Z.of_nat current_step) / inject_Z (Z.of_nat (Nat.max 1 num_warmup_steps))
  else qmax 0 (inject_Z (Z.of_nat num_training_steps - Z.of_nat current_step)
               / inject_Z (Z.of_nat (Nat.max 1 (num_training_steps - num_warmup_steps)))).

Definition scheduled_lr (base_lr : Q) (num_warmup_steps num_training_steps current_step : nat) : Q :=
  base_lr * lr_lambda num_warmup_steps num_training_steps current_step.

(** ** The training script (train.py, lines 25-30 and 71-173) *)

Section Train.
Context {M : Model} {P : Processor} {O : Optimizer}.

(** A sample: prompt, answer, image. *)
Definition Sample : Type := string * string * Image.

(** What the run does that is visible outside its variables. *)
Inductive Event :=
| EvModelTrain
| EvModelEval
| EvForward (input_ids : Tokens) (pixel_values : Pixels) (labels : Tokens)
| EvPrintLoss (loss : float)
| EvGenerate (input_ids : Tokens) (pixel_values : Pixels) (max_new_tokens num_beams : nat)
| EvBatchDecode (ids : Tokens) (skip_special_tokens : bool)
| EvPostProcess (text task : string) (image_size : nat * nat)
| EvPrintGT (answer : string)
| EvPrintPred (caption : string)
| EvBackward
| EvOptimizerStep (lr : Q)
| EvSchedulerStep
| EvZeroGrad
| EvPrintAvgTrain (avg : float)
| EvNoGradEnter
| EvNoGradExit
| EvPrintAvgVal (avg : float)
| EvMakedirs (path : string) (exist_ok : bool)
| EvSaveModel (path : string) (saved : Params)
| EvSaveProcessor (path : string).

(** The objects the loop mutates. *)
Record St := {
  params : Params;            (* model.parameters() *)
  training : bool;            (* model.training *)
  grads : Grads;              (* the accumulated .grad *)
  opt_state : OptState;       (* the optimizer's moments *)
  lr : Q;                     (* the optimizer's current rate *)
  last_epoch : nat;           (* the scheduler's step counter *)
  grad_enabled : bool         (* torch.is_grad_enabled() *)
}.

(** A computation: a trace, and either an exception or a value with the
    new state. *)
Definition Run (A : Type) : Type := St -> list Event * (Py.exn + A * St).

Definition ret {A} (a : A) : Run A := fun s => ([], inr (a, s)).

Definition bind {A B} (m : Run A) (f : A -> Run B) : Run B :=
  fun s =>
    match m s with
    | (t1, inl e) => (t1, inl e)
    | (t1, inr (a, s1)) =>
        match f a s1 with
        | (t2, r) => (t1 ++ t2, r)
        end
    end.

Definition raise {A} (e : Py.exn) : Run A := fun _ => ([], inl e).
Definition emit (e : Event) : Run unit := fun s => ([e], inr (tt, s)).
Definition get : Run St := fun s => ([], inr (s, s)).
Definition put (s : St) : Run unit := fun _ => ([], inr (tt, s)).
Definition lift {A} (r : Py.exn + A) : Run A :=
  match r with
  | inl e => raise e
  | inr a => ret a
  end.

Notation "x <- m ;; k" := (bind m (fun x => k))
  (at level 61, m at next level, right associativity).
Notation "m ;; k" := (bind m (fun _ => k))
  (at level 61, right associativity).

(** [for x in l: body(x)] *)
Fixpoint for_each {A} (l : list A) (body : A -> Run unit) : Run unit :=
  match l with
  | [] => ret tt
  | x :: l' => body x ;; for_each l' body
  end.

(** *** The calls on the model, the optimizer and the scheduler *)

Definition model_train : Run unit :=
  s <- get ;;
  emit EvModelTrain ;;
  put {| params := params s; training := true; grads := grads s;
         opt_state := opt_state s; lr := lr s; last_epoch := last_epoch s;
         grad_enabled := grad_enabled s |}.

Definition model_eval : Run unit :=
  s <- get ;;
  emit EvModelEval ;;
  put {| params := params s; training := false; grads := grads s;
         opt_state := opt_state s; lr := lr s; last_epoch := last_epoch s;
         grad_enabled := grad_enabled s |}.

(** [model(input_ids=..., pixel_values=..., labels=...).loss] *)
Definition model_call (input_ids : Tokens) (pixel_values : Pixels) (labels : Tokens)
  : Run (Loss Grads) :=
  s <- get ;;
  emit (EvForward input_ids pixel_values labels) ;;
  ret (forward (params s) (training s) input_ids pixel_values labels).

(** [model.generate(input_ids=..., pixel_values=..., max_new_tokens=..., num_beams=...)] *)
Definition model_generate (input_ids : Tokens) (pixel_values : Pixels)
    (max_new_tokens num_beams : nat) : Run Tokens :=
  s <- get ;;
  emit (EvGenerate input_ids pixel_values max_new_tokens num_beams) ;;
  ret (generate (params s) (training s) input_ids pixel_values max_new_tokens num_beams).

Definition processor_batch_decode (ids : Tokens) (skip_special_tokens : bool)
  : Run (list string) :=
  emit (EvBatchDecode ids skip_special_tokens) ;;
  ret (batch_decode ids skip_special_tokens).

Definition processor_post_process (text task : string) (image_size : nat * nat)
  : Run (string -> string) :=
  emit (EvPostProcess text task image_size) ;;
  ret (post_process_generation text task image_size).

(** [loss.backward()] *)
Definition loss_backward (loss : Loss Grads) : Run unit :=
  s <- get ;;
  emit EvBackward ;;
  put {| params := params s; training := training s;
         grads := accumulate (grads s) (gradient loss);
         opt_state := opt_state s; lr := lr s; last_epoch := last_epoch s;
         grad_enabled := grad_enabled s |}.

(** [optimizer.step()] *)
Definition optimizer_step : Run unit :=
  s <- get ;;
  emit (EvOptimizerStep (lr s)) ;;
  let '(p, o) := adamw_step (lr s) (params s) (grads s) (opt_state s) in
  put {| params := p; training := training s; grads := grads s;
         opt_state := o; lr := lr s; last_epoch := last_epoch s;
         grad_enabled := grad_enabled s |}.

(** [lr_scheduler.step()] *)
Definition lr_scheduler_step (base_lr : Q) (num_warmup_steps num_training_steps : nat)
  : Run unit :=
  s <- get ;;
  emit EvSchedulerStep ;;
  put {| params := params s; training := training s; grads := grads s;
         opt_state := opt_state s;
         lr := scheduled_lr base_lr num_warmup_steps num_training_steps (S (last_epoch s));
         last_epoch := S (last_epoch s);
         grad_enabled := grad_enabled s |}.

(** [optimizer.zero_grad()] *)
Definition optimizer_zero_grad : Run unit :=
  s <- get ;;
  emit EvZeroGrad ;;
  put {| params := params s; training := training s; grads := no_grads;
         opt_state := opt_state s; lr := lr s; last_epoch := last_epoch s;
         grad_enabled := grad_enabled s |}.

(** [with torch.no_grad():] entering returns the flag to restore. *)
Definition no_grad_enter : Run bool :=
  s <- get ;;
  emit EvNoGradEnter ;;
  put {| params := params s; training := training s; grads := grads s;
         opt_state := opt_state s; lr := lr s; last_epoch := last_epoch s;
         grad_enabled := false |} ;;
  ret (grad_enabled s).

Definition no_grad_exit (prev : bool) : Run unit :=
  s <- get ;;
  emit EvNoGradExit ;;
  put {| params := params s; training := training s; grads := grads s;
         opt_state := opt_state s; lr := lr s; last_epoch := last_epoch s;
         grad_enabled := prev |}.

Definition model_save_pretrained (output_dir : string) : Run unit :=
  s <- get ;;
  emit (EvSaveModel output_dir (params s)).

Definition processor_save_pretrained (output_dir : string) : Run unit :=
  emit (EvSaveProcessor output_dir).

(** *** [collate_fn] (lines 25-30) *)

Definition Batch : Type := Inputs * list string.

Definition collate_fn (batch : list Sample) : Batch :=
  let questions := map (fun s => fst (fst s)) batch in
  let answers := map (fun s => snd (fst s)) batch in
  let images := map (fun s => snd s) batch in
  let inputs := encode questions images in
  (inputs, answers).

(** *** [train_model] (lines 71-171) *)

Definition task : string := "<MORE_DETAILED_DANBOORU_CAPTION>".

(** Lines 105-127: the body of [if i % 200 == 0]. *)
Definition diagnostic (inputs : Inputs) (answers : list string) (loss : Loss Grads)
  : Run unit :=
  emit (EvPrintLoss (item loss)) ;;
  generated_ids <- model_generate (input_ids inputs) (pixel_values inputs) 1024 3 ;;
  generated_texts <- processor_batch_decode generated_ids false ;;
  for_each (combine generated_texts answers) (fun '(generated_text, answer) =>
    parsed_answer <- processor_post_process generated_text task
                       (shape_hw (pixel_values inputs)) ;;
    emit (EvPrintGT answer) ;;
    emit (EvPrintPred (parsed_answer task))).

Section Loop.
Context {R : Sampler Sample}.
Variables train_loader val_loader : DataLoader Sample.
Variable epochs : nat.
Variable base_lr : Q.

Definition num_training_steps : nat := epochs * loader_len train_loader.

(** Lines 87-134: one pass of the training loop's body, after [i += 1]. *)
Definition train_step (i : Z) (batch : Batch) : Run float :=
  let '(inputs, answers) := batch in
  let input_ids := input_ids inputs in
  let pixel_values := pixel_values inputs in
  let labels := tokenizer answers in
  loss <- model_call input_ids pixel_values labels ;;
  (if (i mod 200 =? 0)%Z then diagnostic inputs answers loss else ret tt) ;;
  loss_backward loss ;;
  optimizer_step ;;
  lr_scheduler_step base_lr 0 num_training_steps ;;
  optimizer_zero_grad ;;
  ret (item loss).

(** Lines 86-134: the loop, carrying [i] and [train_loss] ([tqdm] only
    draws a progress bar around the iteration). *)
Fixpoint train_batches (i : Z) (train_loss : Py.num) (batches : list Batch)
  : Run Py.num :=
  match batches with
  | [] => ret train_loss
  | batch :: rest =>
      let i := (i + 1)%Z in
      loss_item <- train_step i batch ;;
      let train_loss := Py.add train_loss (Py.PyFloat loss_item) in
      train_batches i train_loss rest
  end.

(** Lines 146-162: one pass of the validation loop's body. *)
Definition val_step (batch : Batch) : Run float :=
  let '(inputs, answers) := batch in
  let input_ids := input_ids inputs in
  let pixel_values := pixel_values inputs in
  let labels := tokenizer answers in
  loss <- model_call input_ids pixel_values labels ;;
  ret (item loss).

Fixpoint val_batches (val_loss : Py.num) (batches : list Batch) : Run Py.num :=
  match batches with
  | [] => ret val_loss
  | batch :: rest =>
      loss_item <- val_step batch ;;
      let val_loss := Py.add val_loss (Py.PyFloat loss_item) in
      val_batches val_loss rest
  end.

(** Lines 83-137. *)
Definition training_phase (epoch : nat) : Run unit :=
  model_train ;;
  let train_loss := Py.PyInt 0 in
  let i := (-1)%Z in
  train_loss <- train_batches i train_loss
                  (map collate_fn (loader_iter epoch train_loader)) ;;
  avg_train_loss <- lift (Py.truediv train_loss
                            (Py.PyInt (Z.of_nat (loader_len train_loader)))) ;;
  emit (EvPrintAvgTrain avg_train_loss).

(** Lines 140-165. *)
Definition validation_phase (epoch : nat) : Run unit :=
  model_eval ;;
  let val_loss := Py.PyInt 0 in
  prev <- no_grad_enter ;;
  val_loss <- val_batches val_loss
                (map collate_fn (loader_iter epoch val_loader)) ;;
  no_grad_exit prev ;;
  avg_val_loss <- lift (Py.truediv val_loss
                          (Py.PyInt (Z.of_nat (loader_len val_loader)))) ;;
  emit (EvPrintAvgVal avg_val_loss).

(** [str(n)] for a natural number. *)
Definition str (n : nat) : string := NilEmpty.string_of_uint (Nat.to_uint n).

(** Lines 168-171. *)
Definition save_checkpoint (epoch : nat) : Run unit :=
  let output_dir := ("./model_checkpoints/epoch_" ++ str (epoch + 1))%string in
  emit (EvMakedirs output_dir true) ;;
  model_save_pretrained output_dir ;;
  processor_save_pretrained output_dir.

Definition epoch_body (epoch : nat) : Run unit :=
  training_phase epoch ;;
  validation_phase epoch ;;
  save_checkpoint epoch.

(** Lines 72-79: the optimizer and the scheduler; the scheduler's
    constructor sets the rate of step 0. *)
Definition initial_state (model : Params) (mode : bool) : St :=
  {| params := model; training := mode; grads := no_grads;
     opt_state := adamw_init model;
     lr := scheduled_lr base_lr 0 num_training_steps 0;
     last_epoch := 0;
     grad_enabled := true |}.

Definition train_model (model : Params) (mode : bool)
  : list Event * (Py.exn + unit * St) :=
  for_each (seq 0 epochs) epoch_body (initial_state model mode).

End Loop.

(** Lines 40-68 and 173: the script, from the three sequences that
    [generate_grabber_data] returned.  Over an empty training part the
    constructor of the shuffling loader (line 59) refuses the dataset and
    the script stops there; this refusal is not modelled, so [main] stands
    for the script on sequences with at least one element. *)
Definition main {R : Sampler Sample}
    (model : Params) (prompts answers : list string) (images : list Image)
  : list Event * (Py.exn + unit * St) :=
  let '(train_prompts, val_prompts) := data_split prompts in
  let '(train_answers, val_answers) := data_split answers in
  let '(train_images, val_images) := data_split images in
  match from_dict train_prompts train_answers train_images,
        from_dict val_prompts val_answers val_images with
  | inr train_dataset, inr val_dataset =>
      let batch_size := 1%positive in
      let train_loader :=
        {| dataset := GrabberDataset train_dataset;
           batch_size := batch_size; shuffle := true |} in
      let val_loader :=
        {| dataset := GrabberDataset val_dataset;
           batch_size := batch_size; shuffle := false |} in
      train_model train_loader val_loader 3 (1 # 1000000) model false
  | inl e, _ => ([], inl e)
  | _, inl e => ([], inl e)
  end.

End Train.

(** ** Reading a run back *)

Section Observe.
Context {M : Model} {P : Processor} {O : Optimizer}.

(** What a computation gives when run from a state. *)
Definition Outcome (A : Type) : Type := (list Event * (Py.exn + A * St))%type.

Definition trace_of {A} (r : Outcome A) : list Event := fst r.

(** The state a computation leaves, the starting one when it raised. *)
Definition state_after {A} (s : St) (r : Outcome A) : St :=
  match snd r with
  | inr (_, s') => s'
  | inl _ => s
  end.

(** The events of lines 105-127. *)
Definition is_diagnostic (e : Event) : bool :=
  match e with
  | EvPrintLoss _ | EvGenerate _ _ _ _ | EvBatchDecode _ _
  | EvPostProcess _ _ _ | EvPrintGT _ | EvPrintPred _ => true
  | _ => false
  end.

(** The events that change parameters, gradients, optimizer or scheduler,
    and generation. *)
Definition is_update (e : Event) : bool :=
  match e with
  | EvBackward | EvOptimizerStep _ | EvSchedulerStep | EvZeroGrad
  | EvGenerate _ _ _ _ => true
  | _ => false
  end.

(** The events that write to the file system. *)
Definition is_storage (e : Event) : bool :=
  match e with
  | EvMakedirs _ _ | EvSaveModel _ _ | EvSaveProcessor _ => true
  | _ => false
  end.

(** The events of the two batch loops: forward passes, the diagnostic and
    the update. *)
Definition is_loop_event (e : Event) : bool :=
  match e with
  | EvForward _ _ _ | EvBackward | EvOptimizerStep _ | EvSchedulerStep
  | EvZeroGrad => true
  | _ => is_diagnostic e
  end.

Definition is_forward (e : Event) : bool :=
  match e with
  | EvForward _ _ _ => true
  | _ => false
  end.

(** The rates at which [optimizer.step()] ran, in order. *)
Definition optimizer_rates (t : list Event) : list Q :=
  flat_map (fun e => match e with EvOptimizerStep r => [r] | _ => [] end) t.

(** The directories created, in order. *)
Definition checkpoint_dirs (t : list Event) : list string :=
  flat_map (fun e => match e with EvMakedirs d _ => [d] | _ => [] end) t.

(** The label tensors given to the forward pass, in order. *)
Definition forward_labels (t : list Event) : list Tokens :=
  flat_map (fun e => match e with EvForward _ _ l => [l] | _ => [] end) t.

(** The averages printed, in order. *)
Definition printed_train_averages (t : list Event) : list float :=
  flat_map (fun e => match e with EvPrintAvgTrain a => [a] | _ => [] end) t.

Definition printed_val_averages (t : list Event) : list float :=
  flat_map (fun e => match e with EvPrintAvgVal a => [a] | _ => [] end) t.

(** What the diagnostic prints and calls for a batch, given the loss, the
    generated ids and their decoding. *)
Definition diagnostic_events (inputs : Inputs) (answers : list string)
    (loss : Loss Grads) (generated_ids : Tokens) (generated_texts : list string)
  : list Event :=
  [EvPrintLoss (item loss);
   EvGenerate (input_ids inputs) (pixel_values inputs) 1024 3;
   EvBatchDecode generated_ids false]
  ++ flat_map (fun ta : string * string =>
       let hw := shape_hw (pixel_values inputs) in
       [EvPostProcess (fst ta) task hw;
        EvPrintGT (snd ta);
        EvPrintPred (post_process_generation (fst ta) task hw task)])
     (combine generated_texts answers).

Section Passes.
Variable train_loader : DataLoader Sample.
Variable epochs : nat.
Variable base_lr : Q.

(** The traces of the training loop, one per batch, the first batch being
    run with index [j]. *)
Fixpoint per_batch_traces (j : nat) (batches : list Batch) (s : St)
  : list (list Event) :=
  match batches with
  | [] => []
  | b :: rest =>
      let r := train_step train_loader epochs base_lr (Z.of_nat j) b s in
      trace_of r :: per_batch_traces (S j) rest (state_after s r)
  end.

(** The values [loss.item()] of the training loop, one per batch. *)
Fixpoint train_losses (j : nat) (batches : list Batch) (s : St) : list float :=
  match batches with
  | [] => []
  | b :: rest =>
      let r := train_step train_loader epochs base_lr (Z.of_nat j) b s in
      match snd r with
      | inr (x, s') => x :: train_losses (S j) rest s'
      | inl _ => []
      end
  end.

End Passes.

(** The values [loss.item()] of the validation loop, one per batch. *)
Fixpoint val_losses (batches : list Batch) (s : St) : list float :=
  match batches with
  | [] => []
  | b :: rest =>
      match snd (val_step b s) with
      | inr (x, s') => x :: val_losses rest s'
      | inl _ => []
      end
  end.

(** The state with the model switched to train or eval mode. *)
Definition with_training (b : bool) (s : St) : St :=
  {| params := params s; training := b; grads := grads s;
     opt_state := opt_state s; lr := lr s; last_epoch := last_epoch s;
     grad_enabled := grad_enabled s |}.

(** The state with gradient tracking switched on or off. *)
Definition with_grad_enabled (b : bool) (s : St) : St :=
  {| params := params s; training := training s; grads := grads s;
     opt_state := opt_state s; lr := lr s; last_epoch := last_epoch s;
     grad_enabled := b |}.

(** The state after lines 129-132 for a loss, with a budget of [n] steps. *)
Definition after_update (base_lr : Q) (n : nat) (loss : Loss Grads) (s : St) : St :=
  let po := adamw_step (lr s) (params s)
              (accumulate (grads s) (gradient loss)) (opt_state s) in
  {| params := fst po; training := training s; grads := no_grads;
     opt_state := snd po;
     lr := scheduled_lr base_lr 0 n (S (last_epoch s));
     last_epoch := S (last_epoch s);
     grad_enabled := grad_enabled s |}.

(** The loss of the forward pass on a batch in a state. *)
Definition batch_loss (b : Batch) (s : St) : Loss Grads :=
  forward (params s) (training s) (input_ids (fst b)) (pixel_values (fst b))
          (tokenizer (snd b)).

(** The events of the diagnostic on a batch in a state. *)
Definition batch_diagnostic (b : Batch) (s : St) : list Event :=
  let generated_ids :=
    generate (params s) (training s) (input_ids (fst b)) (pixel_values (fst b))
             1024 3 in
  diagnostic_events (fst b) (snd b) (batch_loss b s) generated_ids
                    (batch_decode generated_ids false).

(** The state after the training loop over the batches. *)
Fixpoint after_updates (base_lr : Q) (n : nat) (batches : list Batch) (s : St) : St :=
  match batches with
  | [] => s
  | b :: rest =>
      after_updates base_lr n rest (after_update base_lr n (batch_loss b s) s)
  end.

(** The forward passes of the validation loop. *)
Definition val_events (batches : list Batch) : list Event :=
  map (fun b : Batch =>
         EvForward (input_ids (fst b)) (pixel_values (fst b)) (tokenizer (snd b)))
      batches.

(** The rate the optimizer holds is the scheduled one of the step count. *)
Definition on_schedule (base_lr : Q) (n : nat) (s : St) : Prop :=
  lr s = scheduled_lr base_lr 0 n (last_epoch s).

(** The directory of the checkpoint of an epoch. *)
Definition checkpoint_dir (epoch : nat) : string :=
  ("./model_checkpoints/epoch_" ++ str (epoch + 1))%string.

(** The three calls of one checkpoint. *)
Definition checkpoint_events (epoch : nat) (saved : Params) : list Event :=
  let d := checkpoint_dir epoch in
  [EvMakedirs d true; EvSaveModel d saved; EvSaveProcessor d].

End Observe.

(** ** [count_tokens] (train.py, lines 36-38)

    The length of the first row of the ids the processor gives for one
    text and the test image; a result without rows has no first row. *)
Definition count_tokens `{Processor} (test_image : Image) (text : string)
  : option nat :=
  option_map (@length Z) (nth_error (input_ids (encode [text] [test_image])) 0).

(** ** More readings of a run *)

Section Readings.
Context {M : Model} {P : Processor} {O : Optimizer}.

(** The four calls of lines 129-132. *)
Definition is_cycle (e : Event) : bool :=
  match e with
  | EvBackward | EvOptimizerStep _ | EvSchedulerStep | EvZeroGrad => true
  | _ => false
  end.

(** Lines 129-132 at a rate. *)
Definition update_block (r : Q) : list Event :=
  [EvBackward; EvOptimizerStep r; EvSchedulerStep; EvZeroGrad].

Definition is_generate (e : Event) : bool :=
  match e with
  | EvGenerate _ _ _ _ => true
  | _ => false
  end.

(** The ground truths and the predictions printed, in order. *)
Definition printed_ground_truths (t : list Event) : list string :=
  flat_map (fun e => match e with EvPrintGT a => [a] | _ => [] end) t.

Definition printed_predictions (t : list Event) : list string :=
  flat_map (fun e => match e with EvPrintPred c => [c] | _ => [] end) t.

(** The parameters saved, in order. *)
Definition saved_params (t : list Event) : list Params :=
  flat_map (fun e => match e with EvSaveModel _ p => [p] | _ => [] end) t.

(** The forward passes of the validation phase with its no-gradient
    region around them. *)
Definition validation_events (batches : list Batch) : list Event :=
  [EvModelEval; EvNoGradEnter] ++ val_events batches ++ [EvNoGradExit].

(** The update calls of a trace are whole blocks, one per optimizer step. *)
Definition cycles_in_blocks (t : list Event) : Prop :=
  filter is_cycle t = flat_map update_block (optimizer_rates t).

(** [x / n] for a count [n] that is not zero. *)
Definition average (x : Py.num) (n : nat) : float :=
  (Py.to_float x / Py.int_to_float (Z.of_nat n))%float.

End Readings.

(** ** A small instance of the collaborators

    One integer weight, a loss that counts label positions, a generator
    that echoes its input, characters as tokens, and a sampler that keeps
    the order at even iterations and reverses it at odd ones.  It is used
    to run the script on concrete data. *)

Module Toy.

#[export] Instance model : Model := {|
  Params := Z;
  Grads := Z;
  Pixels := nat * nat;
  forward := fun p _ _ _ labels =>
    {| item := Py.int_to_float (p + Z.of_nat (length (concat labels)));
       gradient := 1%Z |};
  generate := fun _ _ ids _ _ _ => ids;
  no_grads := 0%Z;
  accumulate := Z.add;
  shape_hw := fun hw => hw
|}.

#[export] Instance processor : Processor := {|
  Image := nat;
  encode := fun questions images =>
    {| input_ids := map (fun q => [Z.of_nat (String.length q)]) questions;
       pixel_values := (length images, 1) |};
  tokenize := fun text => map (fun c => Z.of_nat (nat_of_ascii c)) (list_ascii_of_string text);
  pad_token_id := 1%Z;
  batch_decode := fun ids _ => map (fun _ => "caption"%string) ids;
  post_process_generation := fun text _ _ _ => text
|}.

#[export] Instance optimizer : Optimizer := {|
  OptState := nat;
  adamw_init := fun _ => 0;
  adamw_step := fun _ p g o => ((p - g)%Z, S o)
|}.

Definition alternate {A} (k : nat) (l : list A) : list A :=
  if Nat.even k then l else rev l.

Lemma alternate_perm {A} (k : nat) (l : list A) : Permutation (alternate k l) l.
Proof.
  unfold alternate. destruct (Nat.even k).
  - apply Permutation_refl.
  - apply Permutation_sym, Permutation_rev.
Defined.

#[export] Instance sampler {A} : Sampler A := {|
  randperm := alternate;
  randperm_perm := alternate_perm
|}.

(** Samples: prompt, answer, image. *)
Definition sample (n : nat) : Sample :=
  ("<CAP>"%string, String (ascii_of_nat (97 + n)) (String "b" EmptyString), n).

Definition loader (n : nat) (shuffled : bool) : DataLoader Sample :=
  {| dataset := map sample (seq 0 n); batch_size := 1; shuffle := shuffled |}.

(** The rate of the script, [1e-6]. *)
Definition rate : Q := 1 # 1000000.

End Toy.

(** * Properties *)

(** ** The split *)

Section SplitFacts.
Context {A : Type}.

Lemma split_index_le (data : list A) :
  length data - length data / 10 <= length data.
Proof. lia. Qed.

Lemma div10_le (n : nat) : n / 10 <= n.
Proof. apply Nat.Div0.div_le_upper_bound; lia. Qed.

Lemma data_split_fst (data : list A) :
  fst (data_split data) = firstn (length data - length data / 10) data.
Proof. reflexivity. Qed.

Lemma data_split_snd (data : list A) :
  snd (data_split data) = skipn (length data - length data / 10) data.
Proof. reflexivity. Qed.

Lemma data_split_lengths (data : list A) :
  length (fst (data_split data)) = length data - length data / 10 /\
  length (snd (data_split data)) = length data / 10.
Proof.
  rewrite data_split_fst, data_split_snd, length_firstn, length_skipn.
  pose proof (div10_le (length data)). lia.
Qed.

Lemma data_split_nth_fst (data : list A) (i : nat) :
  i < length data - length data / 10 ->
  nth_error (fst (data_split data)) i = nth_error data i.
Proof.
  intros Hi. rewrite data_split_fst, nth_error_firstn.
  destruct (i <? length data - length data / 10) eqn:E; [reflexivity|].
  apply Nat.ltb_ge in E. lia.
Qed.

Lemma data_split_nth_snd (data : list A) (i : nat) :
  nth_error (snd (data_split data)) i
  = nth_error data (length data - length data / 10 + i).
Proof. rewrite data_split_snd. apply nth_error_skipn. Qed.

End SplitFacts.

(** C1: [data_split] returns the two slices at [len(data) - len(data)//10];
    the validation part has [len(data)//10] elements, the two lengths add
    up to [len(data)], the parts concatenate back to the input, training
    elements sit at their own position and validation elements at theirs
    shifted by the cut (the tail), and ten elements give nine and one. *)
Theorem data_split_spec (A : Type) (data : list A) :
  let k := length data - length data / 10 in
  let train := fst (data_split data) in
  let val := snd (data_split data) in
  data_split data = (firstn k data, skipn k data) /\
  length val = length data / 10 /\
  length train + length val = length data /\
  train ++ val = data /\
  (forall i, i < length train -> nth_error train i = nth_error data i) /\
  (forall i, nth_error val i = nth_error data (k + i)) /\
  (forall i, i < length val -> k + i < length data /\ length train <= k + i) /\
  (length data = 10 -> length train = 9 /\ length val = 1).
Proof.
  intros k train val.
  destruct (data_split_lengths data) as [Ht Hv].
  fold train in Ht. fold val in Hv. fold k in Ht.
  pose proof (div10_le (length data)) as Hle.
  repeat apply conj.
  - reflexivity.
  - exact Hv.
  - lia.
  - apply firstn_skipn.
  - intros i Hi. apply data_split_nth_fst. fold k. lia.
  - intros i. apply data_split_nth_snd.
  - intros i Hi. lia.
  - intros H10. rewrite Ht, Hv. unfold k. rewrite H10. split; reflexivity.
Qed.

Section ZipFacts.
Context {A B : Type}.

Lemma skipn_combine (n : nat) (l : list A) (l' : list B) :
  skipn n (combine l l') = combine (skipn n l) (skipn n l').
Proof.
  revert l l'. induction n as [|n IH]; intros l l'; [reflexivity|].
  destruct l as [|a l]; [reflexivity|].
  destruct l' as [|b l']; simpl.
  - now rewrite combine_nil.
  - apply IH.
Qed.

Lemma data_split_combine (l : list A) (l' : list B) :
  length l = length l' ->
  data_split (combine l l') =
  (combine (fst (data_split l)) (fst (data_split l')),
   combine (snd (data_split l)) (snd (data_split l'))).
Proof.
  intros E. unfold data_split, slice_to, slice_from. simpl.
  rewrite length_combine, <- E, Nat.min_id.
  now rewrite combine_firstn, skipn_combine.
Qed.

End ZipFacts.

(** C10: the three sequences are split one by one, and when they have one
    length the cut falls at the same index in each: the [i]-th training
    prompt, answer and image are those of position [i], the [i]-th
    validation ones those of position [cut + i], and the rows of the two
    datasets are the rows of the split of the zipped sequences. *)
Theorem data_split_alignment (I : Type) (prompts answers : list string)
    (images : list I) :
  length prompts = length answers ->
  length answers = length images ->
  let k := length prompts - length prompts / 10 in
  let rows := combine (combine prompts answers) images in
  (length (fst (data_split prompts)) = k /\
   length (fst (data_split answers)) = k /\
   length (fst (data_split images)) = k) /\
  (forall i, i < k ->
     nth_error (fst (data_split prompts)) i = nth_error prompts i /\
     nth_error (fst (data_split answers)) i = nth_error answers i /\
     nth_error (fst (data_split images)) i = nth_error images i) /\
  (forall i,
     nth_error (snd (data_split prompts)) i = nth_error prompts (k + i) /\
     nth_error (snd (data_split answers)) i = nth_error answers (k + i) /\
     nth_error (snd (data_split images)) i = nth_error images (k + i)) /\
  from_dict (fst (data_split prompts)) (fst (data_split answers))
            (fst (data_split images)) = inr (fst (data_split rows)) /\
  from_dict (snd (data_split prompts)) (snd (data_split answers))
            (snd (data_split images)) = inr (snd (data_split rows)).
Proof.
  intros Epa Eai k rows.
  assert (Ka : length answers - length answers / 10 = k)
    by (unfold k; now rewrite Epa).
  assert (Ki : length images - length images / 10 = k)
    by (rewrite <- Eai; exact Ka).
  destruct (data_split_lengths prompts) as [Lp Vp].
  destruct (data_split_lengths answers) as [La Va].
  destruct (data_split_lengths images) as [Li Vi].
  fold k in Lp. rewrite Ka in La. rewrite Ki in Li.
  assert (Hrows : data_split rows =
            (combine (combine (fst (data_split prompts)) (fst (data_split answers)))
                     (fst (data_split images)),
             combine (combine (snd (data_split prompts)) (snd (data_split answers)))
                     (snd (data_split images)))).
  { unfold rows.
    rewrite (data_split_combine (combine prompts answers) images)
      by (now rewrite length_combine, <- Epa, Nat.min_id, Epa).
    now rewrite (data_split_combine prompts answers Epa). }
  repeat apply conj; try assumption.
  - intros i Hi. repeat apply conj; apply data_split_nth_fst; lia.
  - intros i. rewrite <- Ka at 2. rewrite <- Ki at 2. unfold k.
    repeat apply conj; apply data_split_nth_snd.
  - rewrite Hrows. unfold from_dict.
    now rewrite Lp, La, Li, Nat.eqb_refl.
  - rewrite Hrows. unfold from_dict.
    now rewrite Vp, Va, Vi, <- Eai, Epa, Nat.eqb_refl.
Qed.

(** ** Loaders *)

Section LoaderFacts.
Context {A : Type}.

Lemma ceil_div_step (n b : nat) :
  1 <= b -> 1 <= n -> (n + b - 1) / b = S ((n - b + b - 1) / b).
Proof.
  intros Hb Hn. destruct (Nat.le_gt_cases b n) as [Hge|Hlt].
  - replace (n + b - 1) with ((n - b + b - 1) + 1 * b) by lia.
    rewrite Nat.div_add by lia. lia.
  - replace (n - b + b - 1) with (b - 1) by lia.
    rewrite (Nat.div_small (b - 1)) by lia.
    symmetry. apply Nat.div_unique with (r := n - 1); lia.
Qed.

Lemma chunks_length (b : nat) : 1 <= b ->
  forall fuel (l : list A), length l <= fuel ->
  length (chunks fuel b l) = (length l + b - 1) / b.
Proof.
  intros Hb. induction fuel as [|fuel IH]; intros l Hl.
  - destruct l; [|simpl in Hl; lia]. simpl.
    symmetry. apply Nat.div_small. lia.
  - destruct l as [|a l].
    + simpl. symmetry. apply Nat.div_small. lia.
    + cbn [chunks length]. rewrite IH.
      * rewrite length_skipn. cbn [length].
        rewrite (ceil_div_step (S (length l)) b) by lia. reflexivity.
      * rewrite length_skipn. cbn [length] in *. lia.
Qed.

Lemma chunks_concat (b : nat) : 1 <= b ->
  forall fuel (l : list A), length l <= fuel ->
  concat (chunks fuel b l) = l.
Proof.
  intros Hb. induction fuel as [|fuel IH]; intros l Hl.
  - destruct l; [reflexivity|simpl in Hl; lia].
  - destruct l as [|a l]; [reflexivity|].
    cbn [chunks concat]. rewrite IH.
    + apply firstn_skipn.
    + rewrite length_skipn. cbn [length] in *. lia.
Qed.

Context {R : Sampler A}.

Lemma loader_iter_length (k : nat) (ld : DataLoader A) :
  length (loader_iter k ld) = loader_len ld.
Proof.
  unfold loader_iter, loader_len.
  rewrite chunks_length by lia.
  destruct (shuffle ld); [|reflexivity].
  now rewrite (Permutation_length (randperm_perm k (dataset ld))).
Qed.

Lemma loader_iter_samples (k : nat) (ld : DataLoader A) :
  Permutation (concat (loader_iter k ld)) (dataset ld) /\
  (shuffle ld = false -> concat (loader_iter k ld) = dataset ld).
Proof.
  unfold loader_iter. rewrite chunks_concat by lia.
  destruct (shuffle ld).
  - split; [apply randperm_perm|discriminate].
  - split; [apply Permutation_refl|reflexivity].
Qed.

Lemma loader_len_zero (ld : DataLoader A) :
  loader_len ld = 0 <-> dataset ld = [].
Proof.
  unfold loader_len. pose proof (Pos2Nat.is_pos (batch_size ld)) as Hb.
  destruct (dataset ld) as [|a l]; cbn [length].
  - split; [reflexivity|intros _]. apply Nat.div_small. lia.
  - split; [|discriminate]. intros E. exfalso.
    rewrite (ceil_div_step (S (length l)) (Pos.to_nat (batch_size ld))) in E
      by lia.
    discriminate.
Qed.

End LoaderFacts.

(** ** Division by a length *)

Lemma truediv_len (x : Py.num) (n : nat) :
  Py.truediv x (Py.PyInt (Z.of_nat n))
  = if n =? 0 then inl Py.ZeroDivisionError
    else inr (Py.to_float x / Py.int_to_float (Z.of_nat n))%float.
Proof.
  unfold Py.truediv, Py.is_zero. destruct n as [|n]; [reflexivity|].
  replace (Z.of_nat (S n) =? 0)%Z with false; [reflexivity|].
  symmetry. apply Z.eqb_neq. lia.
Qed.

(** ** Running the script *)

Section RunFacts.
Context {M : Model} {P : Processor} {O : Optimizer}.

Ltac run := unfold bind, ret, emit, get, put, lift, raise; cbn.

Lemma bind_run {A B} (m : Run A) (f : A -> Run B) (s s1 : St) t1 a :
  m s = (t1, inr (a, s1)) ->
  bind m f s = (t1 ++ fst (f a s1), snd (f a s1)).
Proof. intros E. unfold bind. rewrite E. now destruct (f a s1). Qed.

Lemma bind_raise {A B} (m : Run A) (f : A -> Run B) (s : St) t1 e :
  m s = (t1, inl e) -> bind m f s = (t1, inl e).
Proof. intros E. unfold bind. now rewrite E. Qed.

(** A loop whose body leaves the state alone leaves it alone. *)
Lemma for_each_frame {A} (body : A -> Run unit) (ev : A -> list Event) :
  (forall x s, body x s = (ev x, inr (tt, s))) ->
  forall l s, for_each l body s = (flat_map ev l, inr (tt, s)).
Proof.
  intros Hb. induction l as [|x l IH]; intros s; [reflexivity|].
  cbn [for_each flat_map]. rewrite (bind_run _ _ s s (ev x) tt (Hb x s)).
  now rewrite IH.
Qed.

Lemma diagnostic_run (inputs : Inputs) (answers : list string)
    (loss : Loss Grads) (s : St) :
  let generated_ids :=
    generate (params s) (training s) (input_ids inputs) (pixel_values inputs)
             1024 3 in
  diagnostic inputs answers loss s
  = (diagnostic_events inputs answers loss generated_ids
       (batch_decode generated_ids false),
     inr (tt, s)).
Proof.
  intros generated_ids. unfold diagnostic, diagnostic_events.
  unfold model_generate, processor_batch_decode.
  run. fold generated_ids.
  rewrite (for_each_frame _
    (fun ta : string * string =>
       [EvPostProcess (fst ta) task (shape_hw (pixel_values inputs));
        EvPrintGT (snd ta);
        EvPrintPred (post_process_generation (fst ta) task
                       (shape_hw (pixel_values inputs)) task)])).
  - reflexivity.
  - intros [text answer] s0. reflexivity.
Qed.

Section Steps.
Variable train_loader : DataLoader Sample.
Variable epochs : nat.
Variable base_lr : Q.

Let N := num_training_steps train_loader epochs.

Lemma train_step_run (i : Z) (b : Batch) (s : St) :
  train_step train_loader epochs base_lr i b s
  = ([EvForward (input_ids (fst b)) (pixel_values (fst b)) (tokenizer (snd b))]
     ++ (if (i mod 200 =? 0)%Z then batch_diagnostic b s else [])
     ++ [EvBackward; EvOptimizerStep (lr s); EvSchedulerStep; EvZeroGrad],
     inr (item (batch_loss b s), after_update base_lr N (batch_loss b s) s)).
Proof.
  destruct b as [inputs answers]. unfold train_step.
  unfold model_call at 1. unfold bind at 1 2 3. cbn [get emit ret fst snd app].
  change (forward (params s) (training s) (input_ids inputs)
            (pixel_values inputs) (tokenizer answers))
    with (batch_loss (inputs, answers) s).
  assert (D : (if (i mod 200 =? 0)%Z
               then diagnostic inputs answers (batch_loss (inputs, answers) s)
               else ret tt) s
              = ((if (i mod 200 =? 0)%Z
                  then batch_diagnostic (inputs, answers) s else []),
                 inr (tt, s))).
  { destruct (i mod 200 =? 0)%Z; [|reflexivity].
    apply (diagnostic_run inputs answers (batch_loss (inputs, answers) s) s). }
  rewrite (bind_run _ _ _ _ _ _ D).
  unfold loss_backward, optimizer_step, lr_scheduler_step, optimizer_zero_grad.
  unfold after_update. cbn [fst snd].
  destruct (adamw_step (lr s) (params s)
              (accumulate (grads s) (gradient (batch_loss (inputs, answers) s)))
              (opt_state s)) as [p o] eqn:E.
  run. rewrite E. cbn. reflexivity.
Qed.


Lemma train_step_state (i : Z) (b : Batch) (s : St) :
  state_after s (train_step train_loader epochs base_lr i b s)
  = after_update base_lr N (batch_loss b s) s.
Proof. unfold state_after. now rewrite train_step_run. Qed.

Lemma train_batches_run (bs : list Batch) : forall (j : nat) acc (s : St),
  train_batches train_loader epochs base_lr (Z.of_nat j - 1) acc bs s
  = (concat (per_batch_traces train_loader epochs base_lr j bs s),
     inr (fold_left Py.add
            (map Py.PyFloat (train_losses train_loader epochs base_lr j bs s)) acc,
          after_updates base_lr N bs s)).
Proof.
  induction bs as [|b bs IH]; intros j acc s; [reflexivity|].
  cbn [train_batches per_batch_traces train_losses after_updates concat].
  replace (Z.of_nat j - 1 + 1)%Z with (Z.of_nat j) by lia.
  rewrite train_step_state.
  rewrite (bind_run _ _ _ _ _ _ (train_step_run (Z.of_nat j) b s)).
  replace (Z.of_nat j) with (Z.of_nat (S j) - 1)%Z at 2 3 by lia.
  rewrite IH. rewrite train_step_run. cbn [fst snd map fold_left].
  reflexivity.
Qed.

Lemma train_losses_length (bs : list Batch) : forall j (s : St),
  length (train_losses train_loader epochs base_lr j bs s) = length bs.
Proof.
  induction bs as [|b bs IH]; intros j s; [reflexivity|].
  cbn [train_losses]. rewrite train_step_run. cbn [snd length].
  now rewrite IH.
Qed.

Lemma per_batch_traces_length (bs : list Batch) : forall j (s : St),
  length (per_batch_traces train_loader epochs base_lr j bs s) = length bs.
Proof.
  induction bs as [|b bs IH]; intros j s; [reflexivity|].
  cbn [per_batch_traces length]. now rewrite IH.
Qed.

Lemma after_updates_fields (bs : list Batch) : forall (s : St),
  last_epoch (after_updates base_lr N bs s) = last_epoch s + length bs /\
  training (after_updates base_lr N bs s) = training s /\
  grad_enabled (after_updates base_lr N bs s) = grad_enabled s.
Proof.
  induction bs as [|b bs IH]; intros s; cbn [after_updates length].
  - now rewrite Nat.add_0_r.
  - destruct (IH (after_update base_lr N (batch_loss b s) s)) as (E1 & E2 & E3).
    rewrite E1, E2, E3. cbn. repeat split. lia.
Qed.

Lemma after_updates_on_schedule (bs : list Batch) : forall (s : St),
  on_schedule base_lr N s -> on_schedule base_lr N (after_updates base_lr N bs s).
Proof.
  induction bs as [|b bs IH]; intros s Hs; [exact Hs|].
  cbn [after_updates]. apply IH. reflexivity.
Qed.

Lemma train_rates (bs : list Batch) : forall j (s : St),
  on_schedule base_lr N s ->
  optimizer_rates (concat (per_batch_traces train_loader epochs base_lr j bs s))
  = map (scheduled_lr base_lr 0 N) (seq (last_epoch s) (length bs)).
Proof.
  induction bs as [|b bs IH]; intros j s Hs; [reflexivity|].
  cbn [per_batch_traces concat length seq map].
  unfold optimizer_rates in *. rewrite flat_map_app.
  rewrite train_step_state, IH by reflexivity.
  rewrite train_step_run. unfold trace_of. cbn [fst].
  rewrite !flat_map_app. cbn [flat_map app].
  assert (D : flat_map (fun e : Event =>
                 match e with EvOptimizerStep r => [r] | _ => [] end)
                (if (Z.of_nat j mod 200 =? 0)%Z then batch_diagnostic b s else [])
              = []).
  { destruct (Z.of_nat j mod 200 =? 0)%Z; [|reflexivity].
    unfold batch_diagnostic, diagnostic_events. rewrite flat_map_app.
    cbn [flat_map app].
    induction (combine _ _) as [|x l IHl]; [reflexivity|]. exact IHl. }
  rewrite D. cbn [app]. rewrite Hs. reflexivity.
Qed.

Lemma val_step_run (b : Batch) (s : St) :
  val_step b s
  = ([EvForward (input_ids (fst b)) (pixel_values (fst b)) (tokenizer (snd b))],
     inr (item (batch_loss b s), s)).
Proof. destruct b as [inputs answers]. reflexivity. Qed.

Lemma val_batches_run (bs : list Batch) : forall acc (s : St),
  val_batches acc bs s
  = (val_events bs,
     inr (fold_left Py.add (map Py.PyFloat (val_losses bs s)) acc, s)).
Proof.
  induction bs as [|b bs IH]; intros acc s; [reflexivity|].
  cbn [val_batches val_losses val_events map].
  rewrite (bind_run _ _ _ _ _ _ (val_step_run b s)).
  rewrite IH, val_step_run. reflexivity.
Qed.

Lemma val_losses_length (bs : list Batch) (s : St) :
  length (val_losses bs s) = length bs.
Proof.
  induction bs as [|b bs IH]; [reflexivity|].
  cbn [val_losses]. rewrite val_step_run. cbn [snd length]. now rewrite IH.
Qed.


Context {R : Sampler Sample}.
Variable val_loader : DataLoader Sample.

Lemma training_phase_run (epoch : nat) (s : St) :
  let bs := map collate_fn (loader_iter epoch train_loader) in
  let s1 := with_training true s in
  let T := concat (per_batch_traces train_loader epochs base_lr 0 bs s1) in
  let losses := train_losses train_loader epochs base_lr 0 bs s1 in
  training_phase train_loader epochs base_lr epoch s
  = match Py.truediv (Py.sum (map Py.PyFloat losses))
                     (Py.PyInt (Z.of_nat (loader_len train_loader))) with
    | inl e => (EvModelTrain :: T, inl e)
    | inr avg => (EvModelTrain :: T ++ [EvPrintAvgTrain avg],
                  inr (tt, after_updates base_lr N bs s1))
    end.
Proof.
  intros bs s1 T losses. unfold training_phase.
  assert (E0 : model_train s = ([EvModelTrain], inr (tt, s1))) by reflexivity.
  rewrite (bind_run _ _ _ _ _ _ E0).
  pose proof (train_batches_run bs 0 (Py.PyInt 0) s1) as E1.
  change (Z.of_nat 0 - 1)%Z with (-1)%Z in E1.
  fold bs. rewrite (bind_run _ _ _ _ _ _ E1).
  fold T losses. fold (Py.sum (map Py.PyFloat losses)).
  destruct (Py.truediv _ _) as [e|avg];
    unfold bind, lift, raise, ret, emit; cbn [fst snd app];
    rewrite ?app_nil_r; reflexivity.
Qed.

Lemma with_grad_enabled_restore (s : St) :
  with_grad_enabled (grad_enabled s) (with_grad_enabled false s) = s.
Proof. now destruct s. Qed.

Lemma validation_phase_run (epoch : nat) (s : St) :
  let bs := map collate_fn (loader_iter epoch val_loader) in
  let s1 := with_training false s in
  let T := [EvModelEval; EvNoGradEnter] ++ val_events bs ++ [EvNoGradExit] in
  validation_phase val_loader epoch s
  = match Py.truediv (Py.sum (map Py.PyFloat (val_losses bs (with_grad_enabled false s1))))
                     (Py.PyInt (Z.of_nat (loader_len val_loader))) with
    | inl e => (T, inl e)
    | inr avg => (T ++ [EvPrintAvgVal avg], inr (tt, s1))
    end.
Proof.
  intros bs s1 T. unfold validation_phase.
  assert (E0 : model_eval s = ([EvModelEval], inr (tt, s1))) by reflexivity.
  rewrite (bind_run _ _ _ _ _ _ E0).
  assert (E1 : no_grad_enter s1
               = ([EvNoGradEnter], inr (grad_enabled s1, with_grad_enabled false s1)))
    by reflexivity.
  rewrite (bind_run _ _ _ _ _ _ E1).
  fold bs.
  rewrite (bind_run _ _ _ _ _ _
             (val_batches_run bs (Py.PyInt 0) (with_grad_enabled false s1))).
  assert (E2 : no_grad_exit (grad_enabled s1) (with_grad_enabled false s1)
               = ([EvNoGradExit], inr (tt, s1))).
  { unfold no_grad_exit. unfold bind, get, emit, put. cbn [fst snd app].
    pose proof (with_grad_enabled_restore s1) as W.
    unfold with_grad_enabled in W. cbn in W. cbn. now rewrite W. }
  rewrite (bind_run _ _ _ _ _ _ E2).
  fold (Py.sum (map Py.PyFloat (val_losses bs (with_grad_enabled false s1)))).
  unfold T.
  destruct (Py.truediv _ _) as [e|avg];
    unfold bind, lift, raise, ret, emit; cbn [fst snd app];
    rewrite ?app_nil_r, <- ?app_assoc; reflexivity.
Qed.

Lemma save_checkpoint_run (epoch : nat) (s : St) :
  save_checkpoint epoch s = (checkpoint_events epoch (params s), inr (tt, s)).
Proof. reflexivity. Qed.


(** *** What the loops leave in a trace *)

Lemma flat_map_nil {X Y} (f : X -> list Y) (l : list X) :
  Forall (fun x => f x = []) l -> flat_map f l = [].
Proof.
  induction 1 as [|x l Hx _ IH]; [reflexivity|].
  cbn [flat_map]. now rewrite Hx, IH.
Qed.

Lemma filter_nil {X} (q : X -> bool) (l : list X) :
  Forall (fun x => q x = false) l -> filter q l = [].
Proof.
  induction 1 as [|x l Hx _ IH]; [reflexivity|].
  cbn [filter]. now rewrite Hx, IH.
Qed.

Lemma batch_diagnostic_events (b : Batch) (s : St) :
  Forall (fun e => is_diagnostic e = true) (batch_diagnostic b s).
Proof.
  unfold batch_diagnostic, diagnostic_events.
  apply Forall_app. split.
  - repeat constructor.
  - induction (combine _ _) as [|x l IH]; [constructor|].
    cbn [flat_map]. repeat constructor. exact IH.
Qed.

Lemma train_step_events (i : Z) (b : Batch) (s : St) :
  Forall (fun e => is_loop_event e = true)
         (trace_of (train_step train_loader epochs base_lr i b s)).
Proof.
  rewrite train_step_run. unfold trace_of. cbn [fst].
  repeat (apply Forall_app; split); try (repeat constructor).
  destruct (i mod 200 =? 0)%Z; [|constructor].
  eapply Forall_impl; [|apply batch_diagnostic_events].
  intros e He. destruct e; try discriminate; reflexivity.
Qed.

Lemma train_trace_events (bs : list Batch) : forall j (s : St),
  Forall (fun e => is_loop_event e = true)
         (concat (per_batch_traces train_loader epochs base_lr j bs s)).
Proof.
  induction bs as [|b bs IH]; intros j s; [constructor|].
  cbn [per_batch_traces concat]. apply Forall_app. split.
  - apply train_step_events.
  - apply IH.
Qed.

Lemma val_trace_events (bs : list Batch) :
  Forall (fun e => is_loop_event e = true) (val_events bs).
Proof.
  unfold val_events. induction bs as [|b bs IH]; constructor; auto.
Qed.

Lemma loop_events_not_stored (t : list Event) :
  Forall (fun e => is_loop_event e = true) t ->
  filter is_storage t = [] /\ checkpoint_dirs t = [].
Proof.
  intros H. split.
  - apply filter_nil. eapply Forall_impl; [|exact H].
    intros e He. destruct e; try discriminate; reflexivity.
  - apply flat_map_nil. eapply Forall_impl; [|exact H].
    intros e He. destruct e; try discriminate; reflexivity.
Qed.

Lemma val_events_no_update (bs : list Batch) :
  filter is_update (val_events bs) = [] /\ optimizer_rates (val_events bs) = [].
Proof.
  unfold val_events. split.
  - apply filter_nil. apply Forall_map. apply Forall_forall. reflexivity.
  - apply flat_map_nil. apply Forall_map. apply Forall_forall. reflexivity.
Qed.


(** *** One epoch and the run *)

Lemma optimizer_rates_app (t1 t2 : list Event) :
  optimizer_rates (t1 ++ t2) = optimizer_rates t1 ++ optimizer_rates t2.
Proof. apply flat_map_app. Qed.

Lemma checkpoint_dirs_app (t1 t2 : list Event) :
  checkpoint_dirs (t1 ++ t2) = checkpoint_dirs t1 ++ checkpoint_dirs t2.
Proof. apply flat_map_app. Qed.

Lemma epoch_body_ok (epoch : nat) (s : St) :
  loader_len train_loader <> 0 ->
  loader_len val_loader <> 0 ->
  let bs := map collate_fn (loader_iter epoch train_loader) in
  let s' := with_training false (after_updates base_lr N bs (with_training true s)) in
  exists t,
    epoch_body train_loader val_loader epochs base_lr epoch s = (t, inr (tt, s')) /\
    (on_schedule base_lr N s ->
     optimizer_rates t
     = map (scheduled_lr base_lr 0 N) (seq (last_epoch s) (loader_len train_loader))) /\
    filter is_storage t = checkpoint_events epoch (params s') /\
    checkpoint_dirs t = [checkpoint_dir epoch].
Proof.
  intros Ht Hv bs s'. unfold epoch_body.
  pose proof (training_phase_run epoch s) as E1. cbv zeta in E1. fold bs in E1.
  rewrite truediv_len in E1.
  destruct (loader_len train_loader =? 0) eqn:Z1;
    [apply Nat.eqb_eq in Z1; contradiction|].
  rewrite (bind_run _ _ _ _ _ _ E1).
  set (s1 := after_updates base_lr N bs (with_training true s)).
  pose proof (validation_phase_run epoch s1) as E2. cbv zeta in E2.
  rewrite truediv_len in E2.
  destruct (loader_len val_loader =? 0) eqn:Z2;
    [apply Nat.eqb_eq in Z2; contradiction|].
  rewrite (bind_run _ _ _ _ _ _ E2).
  rewrite save_checkpoint_run. cbn [fst snd].
  eexists. split; [reflexivity|].
  pose proof (train_trace_events bs 0 (with_training true s)) as Ft.
  pose proof (val_trace_events (map collate_fn (loader_iter epoch val_loader))) as Fv.
  destruct (loop_events_not_stored _ Ft) as [St1 Cd1].
  destruct (loop_events_not_stored _ Fv) as [St2 Cd2].
  destruct (val_events_no_update (map collate_fn (loader_iter epoch val_loader)))
    as [_ Rv].
  repeat apply conj.
  - intros Hs. change (EvModelTrain :: ?x) with ([EvModelTrain] ++ x).
    rewrite !optimizer_rates_app, Rv.
    rewrite (train_rates bs 0 (with_training true s)) by exact Hs.
    unfold bs. rewrite length_map, loader_iter_length. cbn.
    now rewrite !app_nil_r.
  - change (EvModelTrain :: ?x) with ([EvModelTrain] ++ x).
    rewrite !filter_app, St1, St2. reflexivity.
  - change (EvModelTrain :: ?x) with ([EvModelTrain] ++ x).
    rewrite !checkpoint_dirs_app, Cd1, Cd2. reflexivity.
Qed.

Lemma epoch_body_val_empty (epoch : nat) (s : St) :
  loader_len val_loader = 0 ->
  exists t,
    epoch_body train_loader val_loader epochs base_lr epoch s
    = (t, inl Py.ZeroDivisionError) /\
    filter is_storage t = [] /\
    (loader_len train_loader <> 0 ->
     length (printed_train_averages t) = 1 /\ printed_val_averages t = []).
Proof.
  intros Hv. unfold epoch_body.
  pose proof (training_phase_run epoch s) as E1. cbv zeta in E1.
  rewrite truediv_len in E1.
  set (bs := map collate_fn (loader_iter epoch train_loader)) in *.
  pose proof (train_trace_events bs 0 (with_training true s)) as Ft.
  destruct (loop_events_not_stored _ Ft) as [St1 _].
  destruct (loader_len train_loader =? 0) eqn:Z1.
  - rewrite (bind_raise _ _ _ _ _ E1). eexists. split; [reflexivity|]. split.
    + change (EvModelTrain :: ?x) with ([EvModelTrain] ++ x).
      rewrite filter_app, St1. reflexivity.
    + apply Nat.eqb_eq in Z1. intros C. contradiction.
  - rewrite (bind_run _ _ _ _ _ _ E1).
    set (s1 := after_updates base_lr N bs (with_training true s)).
    pose proof (validation_phase_run epoch s1) as E2. cbv zeta in E2.
    rewrite truediv_len, Hv in E2. cbn [Nat.eqb] in E2.
    rewrite (bind_raise _ _ _ _ _ E2). cbn [fst snd].
    pose proof (val_trace_events (map collate_fn (loader_iter epoch val_loader))) as Fv.
    destruct (loop_events_not_stored _ Fv) as [St2 _].
    eexists. split; [reflexivity|]. split.
    + change (EvModelTrain :: ?x) with ([EvModelTrain] ++ x).
      rewrite !filter_app, St1, St2. reflexivity.
    + intros _. unfold printed_train_averages, printed_val_averages.
      change (EvModelTrain :: ?x) with ([EvModelTrain] ++ x).
      rewrite !flat_map_app.
      rewrite (flat_map_nil _ (concat _)), (flat_map_nil _ (concat _)),
              (flat_map_nil _ (val_events _)), (flat_map_nil _ (val_events _)).
      * split; reflexivity.
      * eapply Forall_impl; [|exact Fv].
        intros e He. destruct e; try discriminate; reflexivity.
      * eapply Forall_impl; [|exact Fv].
        intros e He. destruct e; try discriminate; reflexivity.
      * eapply Forall_impl; [|exact Ft].
        intros e He. destruct e; try discriminate; reflexivity.
      * eapply Forall_impl; [|exact Ft].
        intros e He. destruct e; try discriminate; reflexivity.
Qed.


Lemma epoch_state_fields (epoch : nat) (s : St) :
  on_schedule base_lr N s ->
  let bs := map collate_fn (loader_iter epoch train_loader) in
  let s' := with_training false (after_updates base_lr N bs (with_training true s)) in
  on_schedule base_lr N s' /\
  last_epoch s' = last_epoch s + loader_len train_loader.
Proof.
  intros Hs bs s'.
  destruct (after_updates_fields bs (with_training true s)) as (L & _ & _).
  split.
  - apply (after_updates_on_schedule bs (with_training true s)). exact Hs.
  - unfold s'. cbn [with_training last_epoch]. rewrite L.
    unfold bs. now rewrite length_map, loader_iter_length.
Qed.

Lemma epochs_run_ok :
  loader_len train_loader <> 0 ->
  loader_len val_loader <> 0 ->
  forall (l : list nat) (s : St),
  on_schedule base_lr N s ->
  exists t s' saved,
    for_each l (epoch_body train_loader val_loader epochs base_lr) s
    = (t, inr (tt, s')) /\
    on_schedule base_lr N s' /\
    last_epoch s' = last_epoch s + length l * loader_len train_loader /\
    optimizer_rates t
    = map (scheduled_lr base_lr 0 N)
          (seq (last_epoch s) (length l * loader_len train_loader)) /\
    checkpoint_dirs t = map checkpoint_dir l /\
    length saved = length l /\
    filter is_storage t
    = flat_map (fun ep => checkpoint_events (fst ep) (snd ep)) (combine l saved).
Proof.
  intros Ht Hv. induction l as [|e l IH]; intros s Hs.
  - exists [], s, []. cbn. repeat split; auto.
  - destruct (epoch_body_ok e s Ht Hv) as (t1 & E1 & R1 & S1 & C1).
    specialize (R1 Hs).
    destruct (epoch_state_fields e s Hs) as [Hs1 L1].
    cbv zeta in E1, S1, Hs1, L1.
    set (s1 := with_training false
                 (after_updates base_lr N
                    (map collate_fn (loader_iter e train_loader))
                    (with_training true s))) in *.
    destruct (IH s1 Hs1) as (t2 & s2 & saved & E2 & Hs2 & L2 & R2 & C2 & Ls & S2).
    exists (t1 ++ t2), s2, (params s1 :: saved).
    cbn [for_each]. rewrite (bind_run _ _ _ _ _ _ E1), E2. cbn [fst snd].
    repeat apply conj; auto.
    + rewrite L2, L1. cbn [length]. lia.
    + rewrite optimizer_rates_app, R1, R2, L1. cbn [length].
      rewrite <- map_app. f_equal.
      replace (S (length l) * loader_len train_loader)
        with (loader_len train_loader + length l * loader_len train_loader) by lia.
      now rewrite seq_app.
    + rewrite checkpoint_dirs_app, C1, C2. reflexivity.
    + cbn [length]. now rewrite Ls.
    + rewrite filter_app, S1, S2. reflexivity.
Qed.

Lemma epochs_run_val_empty :
  loader_len val_loader = 0 ->
  forall (e : nat) (l : list nat) (s : St),
  exists t,
    for_each (e :: l) (epoch_body train_loader val_loader epochs base_lr) s
    = (t, inl Py.ZeroDivisionError) /\
    filter is_storage t = [].
Proof.
  intros Hv e l s.
  destruct (epoch_body_val_empty e s Hv) as (t & E & S0 & _).
  exists t. cbn [for_each]. now rewrite (bind_raise _ _ _ _ _ E).
Qed.


Lemma per_batch_traces_nth (bs : list Batch) : forall j0 (s : St) j,
  j < length bs ->
  exists b sj,
    nth_error bs j = Some b /\
    nth_error (per_batch_traces train_loader epochs base_lr j0 bs s) j
    = Some (trace_of (train_step train_loader epochs base_lr
                        (Z.of_nat (j0 + j)) b sj)).
Proof.
  induction bs as [|b bs IH]; intros j0 s j Hj; [inversion Hj|].
  destruct j as [|j].
  - exists b, s. rewrite Nat.add_0_r. split; reflexivity.
  - cbn [per_batch_traces nth_error].
    destruct (IH (S j0) (state_after s
                   (train_step train_loader epochs base_lr (Z.of_nat j0) b s)) j)
      as (b' & sj & E1 & E2); [cbn [length] in Hj; lia|].
    exists b', sj. split; [exact E1|].
    rewrite E2. do 3 f_equal. lia.
Qed.

Lemma train_step_diagnostic (i : Z) (b : Batch) (s : St) :
  existsb is_diagnostic (trace_of (train_step train_loader epochs base_lr i b s))
  = (i mod 200 =? 0)%Z.
Proof.
  rewrite train_step_run. unfold trace_of. cbn [fst].
  rewrite !existsb_app. cbn [existsb is_diagnostic orb].
  rewrite orb_false_r.
  destruct (i mod 200 =? 0)%Z; reflexivity.
Qed.


Lemma train_step_forward (i : Z) (b : Batch) (s : St) :
  filter is_forward (trace_of (train_step train_loader epochs base_lr i b s))
  = val_events [b].
Proof.
  rewrite train_step_run. unfold trace_of. cbn [fst].
  rewrite !filter_app. cbn [filter is_forward app].
  rewrite (filter_nil is_forward (if (i mod 200 =? 0)%Z then _ else _)).
  - reflexivity.
  - destruct (i mod 200 =? 0)%Z; [|constructor].
    eapply Forall_impl; [|apply batch_diagnostic_events].
    intros e He. destruct e; try discriminate; reflexivity.
Qed.

Lemma train_trace_forward (bs : list Batch) : forall j (s : St),
  filter is_forward (concat (per_batch_traces train_loader epochs base_lr j bs s))
  = val_events bs.
Proof.
  induction bs as [|b bs IH]; intros j s; [reflexivity|].
  cbn [per_batch_traces concat]. rewrite filter_app, train_step_forward, IH.
  reflexivity.
Qed.

Lemma val_events_forward (bs : list Batch) :
  filter is_forward (val_events bs) = val_events bs.
Proof.
  unfold val_events. induction bs as [|b bs IH]; [reflexivity|].
  cbn [map filter is_forward]. now rewrite IH.
Qed.

End Steps.

End RunFacts.

(** ** The schedule *)

Section Schedule.
Variable base_lr : Q.
Variable n : nat.
Hypothesis budget : 1 <= n.

Lemma budget_pos : (0 < inject_Z (Z.of_nat n))%Q.
Proof. change 0%Q with (inject_Z 0). rewrite <- Zlt_Qlt. lia. Qed.

Lemma qmax_nonneg (x : Q) : (0 <= x)%Q -> qmax 0 x = x.
Proof.
  intros H. unfold qmax. destruct (Qle_bool 0 x) eqn:E; [reflexivity|].
  apply Qle_bool_iff in H. congruence.
Qed.

Lemma lr_lambda_linear (t : nat) : t <= n ->
  (lr_lambda 0 n t == 1 - inject_Z (Z.of_nat t) / inject_Z (Z.of_nat n))%Q.
Proof.
  intros Ht. unfold lr_lambda. cbn [Nat.ltb Nat.leb].
  rewrite Nat.sub_0_r, Nat.max_r by lia.
  pose proof budget_pos as Hpos.
  rewrite qmax_nonneg.
  - unfold Zminus. rewrite inject_Z_plus, inject_Z_opp. field. lra.
  - apply Qle_shift_div_l; [exact Hpos|]. rewrite Qmult_0_l.
    change 0%Q with (inject_Z 0). rewrite <- Zle_Qle. lia.
Qed.

Lemma scheduled_lr_linear (t : nat) : t <= n ->
  (scheduled_lr base_lr 0 n t
   == base_lr - inject_Z (Z.of_nat t) * (base_lr / inject_Z (Z.of_nat n)))%Q.
Proof.
  intros Ht. unfold scheduled_lr. rewrite (lr_lambda_linear t Ht).
  pose proof budget_pos as Hpos. field. lra.
Qed.

Lemma scheduled_lr_start : (scheduled_lr base_lr 0 n 0 == base_lr)%Q.
Proof.
  rewrite scheduled_lr_linear by lia. pose proof budget_pos as Hpos.
  cbn. field. lra.
Qed.

Lemma scheduled_lr_end : (scheduled_lr base_lr 0 n n == 0)%Q.
Proof.
  rewrite scheduled_lr_linear by lia. pose proof budget_pos as Hpos.
  field. lra.
Qed.

Lemma scheduled_lr_decreasing (t : nat) : (0 < base_lr)%Q -> t < n ->
  (scheduled_lr base_lr 0 n (S t) < scheduled_lr base_lr 0 n t)%Q.
Proof.
  intros Hb Ht. rewrite !scheduled_lr_linear by lia.
  pose proof budget_pos as Hpos.
  assert (Hc : (0 < base_lr / inject_Z (Z.of_nat n))%Q).
  { apply Qlt_shift_div_l; [exact Hpos|]. now rewrite Qmult_0_l. }
  rewrite Nat2Z.inj_succ. unfold Z.succ. rewrite inject_Z_plus.
  set (c := (base_lr / inject_Z (Z.of_nat n))%Q) in *.
  change (inject_Z 1) with 1%Q.
  assert (E : ((inject_Z (Z.of_nat t) + 1) * c
               == inject_Z (Z.of_nat t) * c + c)%Q) by ring.
  rewrite E. lra.
Qed.

End Schedule.

(** ** Checkpoint names *)

Lemma append_cancel_l (p a b : string) :
  (p ++ a)%string = (p ++ b)%string -> a = b.
Proof.
  induction p as [|c p IH]; cbn; intros E; [exact E|].
  apply IH. now inversion E.
Qed.

Lemma str_injective (a b : nat) : str a = str b -> a = b.
Proof.
  unfold str. intros E.
  assert (E' : Nat.to_uint a = Nat.to_uint b).
  { apply (f_equal NilEmpty.uint_of_string) in E.
    rewrite !NilEmpty.usu in E. now inversion E. }
  apply (f_equal Nat.of_uint) in E'.
  now rewrite !DecimalNat.Unsigned.of_to in E'.
Qed.

Lemma checkpoint_dir_injective (a b : nat) :
  checkpoint_dir a = checkpoint_dir b -> a = b.
Proof.
  unfold checkpoint_dir. intros E.
  apply append_cancel_l, str_injective in E. lia.
Qed.

Lemma checkpoint_dirs_distinct (l : list nat) :
  NoDup l -> NoDup (map checkpoint_dir l).
Proof.
  induction 1 as [|x l Hx _ IH]; cbn; constructor; [|exact IH].
  intros Hin. apply in_map_iff in Hin. destruct Hin as (y & E & Hy).
  apply checkpoint_dir_injective in E. now subst.
Qed.

(** * The claims about [train_model] *)

Ltac split_ands := repeat match goal with |- _ /\ _ => split end.

Section Claims.
Context {M : Model} {P : Processor} {O : Optimizer} {R : Sampler Sample}.

(** C2: in the training loop the diagnostic (print the loss, generate with
    [max_new_tokens=1024] and [num_beams=3], decode with
    [skip_special_tokens=False], post-process and print ground truth and
    prediction per sample) runs for a batch exactly when its index is
    divisible by 200.  The index restarts with every epoch: each training
    phase runs batch [j] with index [j], so index 0 runs the diagnostic
    and index 1 does not.  The diagnostic leaves the state as it found it,
    and a step returns the same loss and the same state whatever its
    index. *)
Theorem diagnostic_every_200th_batch
    (train_loader : DataLoader Sample) (epochs : nat) (base_lr : Q) :
  let step := train_step train_loader epochs base_lr in
  let traces := per_batch_traces train_loader epochs base_lr in
  (forall i b s,
     trace_of (step i b s)
     = [EvForward (input_ids (fst b)) (pixel_values (fst b)) (tokenizer (snd b))]
       ++ (if (i mod 200 =? 0)%Z then batch_diagnostic b s else [])
       ++ [EvBackward; EvOptimizerStep (lr s); EvSchedulerStep; EvZeroGrad]) /\
  (forall i b s,
     existsb is_diagnostic (trace_of (step i b s)) = true <-> (i mod 200 = 0)%Z) /\
  (forall b s,
     let ids := generate (params s) (training s) (input_ids (fst b))
                         (pixel_values (fst b)) 1024 3 in
     let hw := shape_hw (pixel_values (fst b)) in
     batch_diagnostic b s
     = [EvPrintLoss (item (batch_loss b s));
        EvGenerate (input_ids (fst b)) (pixel_values (fst b)) 1024 3;
        EvBatchDecode ids false]
       ++ flat_map (fun ta : string * string =>
            [EvPostProcess (fst ta) task hw;
             EvPrintGT (snd ta);
             EvPrintPred (post_process_generation (fst ta) task hw task)])
          (combine (batch_decode ids false) (snd b))) /\
  (forall epoch s,
     let bs := map collate_fn (loader_iter epoch train_loader) in
     exists report,
       trace_of (training_phase train_loader epochs base_lr epoch s)
       = EvModelTrain :: concat (traces 0 bs (with_training true s)) ++ report) /\
  (forall bs s j, j < length bs ->
     exists per,
       nth_error (traces 0 bs s) j = Some per /\
       (existsb is_diagnostic per = true <-> j mod 200 = 0)) /\
  (forall b s, existsb is_diagnostic (trace_of (step 0%Z b s)) = true) /\
  (forall b s, existsb is_diagnostic (trace_of (step 1%Z b s)) = false) /\
  (forall inputs answers loss s,
     snd (diagnostic inputs answers loss s) = inr (tt, s)) /\
  (forall i b s,
     snd (step i b s)
     = inr (item (batch_loss b s),
            after_update base_lr (num_training_steps train_loader epochs)
                         (batch_loss b s) s)).
Proof.
  intros step traces. unfold step, traces. split_ands.
  - intros i b s. now rewrite train_step_run.
  - intros i b s. rewrite train_step_diagnostic. apply Z.eqb_eq.
  - reflexivity.
  - intros epoch s. rewrite training_phase_run.
    destruct (Py.truediv _ _) as [e|avg].
    + exists []. unfold trace_of. cbn [fst]. now rewrite app_nil_r.
    + eexists. reflexivity.
  - intros bs s j Hj.
    destruct (per_batch_traces_nth train_loader epochs base_lr bs 0 s j Hj)
      as (b & sj & _ & E).
    eexists. split; [exact E|]. rewrite train_step_diagnostic.
    cbn [Nat.add]. rewrite Z.eqb_eq.
    change 200%Z with (Z.of_nat 200). rewrite <- Nat2Z.inj_mod.
    split; intros H; lia.
  - intros b s. now rewrite train_step_diagnostic.
  - intros b s. now rewrite train_step_diagnostic.
  - intros inputs answers loss s. now rewrite diagnostic_run.
  - intros i b s. now rewrite train_step_run.
Qed.

(** C3: the average training loss an epoch prints is the sum of the values
    [loss.item()] of its batches, added up from 0 in the order of the
    loop, divided by their number, which is [len(train_loader)]; nothing
    is printed when that division raises.  The same holds for the average
    validation loss and the validation loader.  Each value is the loss
    of the forward pass on its batch. *)
Theorem average_loss_is_sum_over_count
    (train_loader val_loader : DataLoader Sample) (epochs : nat) (base_lr : Q)
    (epoch : nat) (s : St) :
  let bs := map collate_fn (loader_iter epoch train_loader) in
  let losses := train_losses train_loader epochs base_lr 0 bs (with_training true s) in
  let vbs := map collate_fn (loader_iter epoch val_loader) in
  let sv := with_grad_enabled false (with_training false s) in
  let vlosses := val_losses vbs sv in
  length losses = loader_len train_loader /\
  printed_train_averages
    (trace_of (training_phase train_loader epochs base_lr epoch s))
  = match Py.truediv (Py.sum (map Py.PyFloat losses))
                     (Py.PyInt (Z.of_nat (length losses))) with
    | inr avg => [avg]
    | inl _ => []
    end /\
  length vlosses = loader_len val_loader /\
  printed_val_averages (trace_of (validation_phase val_loader epoch s))
  = match Py.truediv (Py.sum (map Py.PyFloat vlosses))
                     (Py.PyInt (Z.of_nat (length vlosses))) with
    | inr avg => [avg]
    | inl _ => []
    end /\
  vlosses = map (fun b => item (batch_loss b sv)) vbs /\
  (forall x, In x losses -> exists b sj, In b bs /\ x = item (batch_loss b sj)).
Proof.
  intros bs losses vbs sv vlosses.
  assert (Ll : length losses = loader_len train_loader).
  { unfold losses. rewrite train_losses_length. unfold bs.
    now rewrite length_map, loader_iter_length. }
  assert (Lv : length vlosses = loader_len val_loader).
  { unfold vlosses. rewrite val_losses_length. unfold vbs.
    now rewrite length_map, loader_iter_length. }
  split_ands.
  - exact Ll.
  - rewrite training_phase_run. fold bs. fold losses. rewrite Ll.
    pose proof (train_trace_events train_loader epochs base_lr bs 0
                  (with_training true s)) as Ft.
    assert (Z0 : printed_train_averages
                   (concat (per_batch_traces train_loader epochs base_lr 0 bs
                              (with_training true s))) = []).
    { apply flat_map_nil. eapply Forall_impl; [|exact Ft].
      intros e He. destruct e; try discriminate; reflexivity. }
    destruct (Py.truediv _ _) as [e|avg]; unfold trace_of; cbn [fst];
      change (EvModelTrain :: ?x) with ([EvModelTrain] ++ x);
      unfold printed_train_averages in *; rewrite ?flat_map_app, Z0; reflexivity.
  - exact Lv.
  - rewrite validation_phase_run. fold vbs. fold sv. fold vlosses. rewrite Lv.
    pose proof (val_trace_events vbs) as Fv.
    assert (Z0 : printed_val_averages (val_events vbs) = []).
    { apply flat_map_nil. eapply Forall_impl; [|exact Fv].
      intros e He. destruct e; try discriminate; reflexivity. }
    destruct (Py.truediv _ _) as [e|avg]; unfold trace_of; cbn [fst];
      unfold printed_val_averages in *; rewrite ?flat_map_app, Z0; reflexivity.
  - unfold vlosses. generalize sv. clear. intros sv.
    induction vbs as [|b l IH]; [reflexivity|].
    cbn [val_losses map]. rewrite val_step_run. cbn [snd]. now rewrite IH.
  - unfold losses. generalize (with_training true s) 0. clear.
    induction bs as [|b l IH]; intros s0 j x Hx; [destruct Hx|].
    cbn [train_losses] in Hx. rewrite train_step_run in Hx. cbn [snd] in Hx.
    destruct Hx as [Hx|Hx].
    + exists b, s0. split; [now left|now symmetry].
    + destruct (IH _ _ _ Hx) as (b' & sj & Hb & E).
      exists b', sj. split; [now right|exact E].
Qed.

(** C4: with a budget of [epochs * len(train_loader)] steps and no warmup,
    the scheduled rate starts at the configured one, drops at every step
    (so already at the first: no plateau), lies on the straight line from
    the configured rate to zero, and is zero at the last step of the
    budget.  The run steps the scheduler once per training batch and
    nowhere else: the optimizer runs at the rates of steps [0] to
    [budget - 1] in turn, and the run ends at step [budget] with a rate of
    zero. *)
Theorem linear_schedule_reaches_zero
    (train_loader val_loader : DataLoader Sample) (epochs : nat) (base_lr : Q)
    (model : Params) (mode : bool) :
  0 < epochs ->
  loader_len train_loader <> 0 ->
  loader_len val_loader <> 0 ->
  (0 < base_lr)%Q ->
  let n := num_training_steps train_loader epochs in
  let rate := scheduled_lr base_lr 0 n in
  n = epochs * loader_len train_loader /\
  (rate 0%nat == base_lr)%Q /\
  (forall t, t < n -> (rate (S t) < rate t)%Q) /\
  (forall t, t <= n ->
     (rate t == base_lr - inject_Z (Z.of_nat t) * (base_lr / inject_Z (Z.of_nat n)))%Q) /\
  (rate n == 0)%Q /\
  exists t s',
    train_model train_loader val_loader epochs base_lr model mode
    = (t, inr (tt, s')) /\
    optimizer_rates t = map rate (seq 0 n) /\
    last_epoch s' = n /\
    (lr s' == 0)%Q.
Proof.
  intros He Ht Hv Hb n rate.
  assert (Hn : 1 <= n) by (unfold n, num_training_steps; nia).
  split_ands.
  - reflexivity.
  - apply scheduled_lr_start, Hn.
  - intros t Hlt. apply scheduled_lr_decreasing; assumption.
  - intros t Hle. apply scheduled_lr_linear; assumption.
  - apply scheduled_lr_end, Hn.
  - unfold train_model.
    set (s0 := initial_state train_loader epochs base_lr model mode).
    assert (H0 : on_schedule base_lr n s0) by reflexivity.
    destruct (epochs_run_ok train_loader epochs base_lr val_loader Ht Hv
                (seq 0 epochs) s0 H0)
      as (t & s' & saved & E & Hs' & L & Rt & _ & _ & _).
    rewrite length_seq in L, Rt. cbn [last_epoch s0 initial_state] in L, Rt.
    exists t, s'. split; [exact E|].
    assert (Ln : last_epoch s' = n) by (rewrite L; reflexivity).
    split_ands.
    + exact Rt.
    + exact Ln.
    + rewrite Hs', Ln. apply scheduled_lr_end, Hn.
Qed.

(** C5: the validation phase switches the model to eval mode, opens one
    no-gradient region, runs for each batch the label encoding and the
    forward pass that a training step starts with, closes the region and
    reports; it runs no backward pass, no optimizer step, no scheduler
    step, no gradient reset and no generation, and leaves parameters,
    gradients, optimizer state, rate, scheduler step count and gradient
    mode as they were. *)
Theorem validation_leaves_training_state
    (val_loader : DataLoader Sample) (epoch : nat) (s : St) :
  let r := validation_phase val_loader epoch s in
  let bs := map collate_fn (loader_iter epoch val_loader) in
  trace_of r
  = [EvModelEval; EvNoGradEnter] ++ val_events bs ++ [EvNoGradExit]
    ++ map EvPrintAvgVal (printed_val_averages (trace_of r)) /\
  filter is_update (trace_of r) = [] /\
  (forall s', (exists x, snd r = inr (x, s')) -> s' = with_training false s) /\
  (params (state_after s r) = params s /\
   grads (state_after s r) = grads s /\
   opt_state (state_after s r) = opt_state s /\
   lr (state_after s r) = lr s /\
   last_epoch (state_after s r) = last_epoch s /\
   grad_enabled (state_after s r) = grad_enabled s) /\
  (forall b s0,
     val_step b s0
     = ([EvForward (input_ids (fst b)) (pixel_values (fst b)) (tokenizer (snd b))],
        inr (item (batch_loss b s0), s0))) /\
  (forall train_loader epochs base_lr i b s0,
     exists rest,
       trace_of (train_step train_loader epochs base_lr i b s0)
       = trace_of (val_step b s0) ++ rest).
Proof.
  intros r bs.
  pose proof (validation_phase_run val_loader epoch s) as E. cbv zeta in E.
  fold bs in E. fold r in E.
  pose proof (val_trace_events bs) as Fv.
  assert (Z0 : printed_val_averages (val_events bs) = []).
  { apply flat_map_nil. eapply Forall_impl; [|exact Fv].
    intros e He. destruct e; try discriminate; reflexivity. }
  destruct (val_events_no_update bs) as [U0 _].
  destruct (Py.truediv _ _) as [e|avg]; rewrite E; unfold trace_of, state_after;
    cbn [fst snd]; unfold printed_val_averages in *;
    rewrite ?flat_map_app, ?filter_app, Z0, U0; cbn; split_ands;
    try reflexivity.
  all: try (intros s' [x Hx]; (discriminate || now inversion Hx)).
  all: try (intros b s0; apply val_step_run).
  all: try (intros tl ep lr0 i b s0; rewrite train_step_run, val_step_run;
            eexists; reflexivity).
  now rewrite <- app_assoc.
Qed.

Lemma epoch_body_train_empty
    (train_loader val_loader : DataLoader Sample) (epochs : nat) (base_lr : Q)
    (epoch : nat) (s : St) :
  loader_len train_loader = 0 ->
  exists t,
    training_phase train_loader epochs base_lr epoch s
    = (t, inl Py.ZeroDivisionError) /\
    epoch_body train_loader val_loader epochs base_lr epoch s
    = (t, inl Py.ZeroDivisionError) /\
    filter is_storage t = [].
Proof.
  intros Ht. unfold epoch_body.
  pose proof (training_phase_run train_loader epochs base_lr epoch s) as E1.
  cbv zeta in E1. rewrite truediv_len, Ht in E1. cbn [Nat.eqb] in E1.
  rewrite (bind_raise _ _ _ _ _ E1). eexists.
  split; [exact E1|]. split; [reflexivity|].
  change (EvModelTrain :: ?x) with ([EvModelTrain] ++ x).
  rewrite filter_app.
  pose proof (train_trace_events train_loader epochs base_lr
                (map collate_fn (loader_iter epoch train_loader)) 0
                (with_training true s)) as Ft.
  destruct (loop_events_not_stored _ Ft) as [S0 _].
  now rewrite S0.
Qed.

Lemma epoch_body_storage
    (train_loader val_loader : DataLoader Sample) (epochs : nat) (base_lr : Q)
    (epoch : nat) (s : St) :
  let r := epoch_body train_loader val_loader epochs base_lr epoch s in
  filter is_storage (trace_of r)
  = match snd r with
    | inr (_, s') => checkpoint_events epoch (params s')
    | inl _ => []
    end.
Proof.
  intros r. unfold r, trace_of.
  destruct (Nat.eq_dec (loader_len train_loader) 0) as [Ht|Ht].
  - destruct (epoch_body_train_empty train_loader val_loader epochs base_lr
                epoch s Ht) as (t & _ & E & S0).
    now rewrite E.
  - destruct (Nat.eq_dec (loader_len val_loader) 0) as [Hv|Hv].
    + destruct (epoch_body_val_empty train_loader epochs base_lr val_loader
                  epoch s Hv) as (t & E & S0 & _).
      now rewrite E.
    + destruct (epoch_body_ok train_loader epochs base_lr val_loader
                  epoch s Ht Hv) as (t & E & _ & S0 & _).
      now rewrite E.
Qed.

(** C6: a run whose loaders are not empty completes, and it creates one
    directory per epoch, [./model_checkpoints/epoch_{e+1}] for epoch [e],
    all different, each with [exist_ok=True] and followed by the saving of
    the model parameters and of the processor, and writes nothing else:
    no optimizer or scheduler state.  An epoch that completes writes its
    one checkpoint and an epoch that raises writes none.  One epoch over
    one training batch steps the optimizer once and creates the one
    directory [./model_checkpoints/epoch_1]. *)
Theorem one_checkpoint_per_epoch
    (train_loader val_loader : DataLoader Sample) (epochs : nat) (base_lr : Q)
    (model : Params) (mode : bool) :
  loader_len train_loader <> 0 ->
  loader_len val_loader <> 0 ->
  (exists t s' saved,
     train_model train_loader val_loader epochs base_lr model mode
     = (t, inr (tt, s')) /\
     checkpoint_dirs t = map checkpoint_dir (seq 0 epochs) /\
     length saved = epochs /\
     filter is_storage t
     = flat_map (fun ep => checkpoint_events (fst ep) (snd ep))
                (combine (seq 0 epochs) saved) /\
     length (optimizer_rates t) = epochs * loader_len train_loader /\
     (epochs = 1 -> loader_len train_loader = 1 ->
      length (optimizer_rates t) = 1 /\
      checkpoint_dirs t = ["./model_checkpoints/epoch_1"%string])) /\
  NoDup (map checkpoint_dir (seq 0 epochs)) /\
  (forall e, checkpoint_dir e = ("./model_checkpoints/epoch_" ++ str (e + 1))%string) /\
  (forall e p,
     checkpoint_events e p
     = [EvMakedirs (checkpoint_dir e) true;
        EvSaveModel (checkpoint_dir e) p;
        EvSaveProcessor (checkpoint_dir e)]) /\
  (forall e s,
     let r := epoch_body train_loader val_loader epochs base_lr e s in
     filter is_storage (trace_of r)
     = match snd r with
       | inr (_, s') => checkpoint_events e (params s')
       | inl _ => []
       end).
Proof.
  intros Ht Hv. split_ands.
  - unfold train_model.
    set (s0 := initial_state train_loader epochs base_lr model mode).
    assert (H0 : on_schedule base_lr (num_training_steps train_loader epochs) s0)
      by reflexivity.
    destruct (epochs_run_ok train_loader epochs base_lr val_loader Ht Hv
                (seq 0 epochs) s0 H0)
      as (t & s' & saved & E & _ & _ & Rt & Cd & Ls & St0).
    rewrite length_seq in Rt, Ls.
    exists t, s', saved. split_ands; try assumption.
    + rewrite Rt. now rewrite length_map, length_seq.
    + intros E1 L1. rewrite Rt, Cd, length_map, length_seq, E1, L1.
      split; reflexivity.
  - apply checkpoint_dirs_distinct, seq_NoDup.
  - reflexivity.
  - reflexivity.
  - intros e s. apply epoch_body_storage.
Qed.

(** C9: with an empty validation loader every epoch raises
    [ZeroDivisionError] and writes no checkpoint (when the training loader
    is not empty the training average has been printed and the validation
    one has not, so the division that fails is the validation one), and so
    does a run of at least one epoch; with an empty training loader the
    division of the training average raises.  A division by a loader
    length gives a value exactly when the loader is not empty.  The
    validation part of a split of fewer than ten elements is empty, a
    loader over it has length zero, and the script on three sequences of
    one length from one to nine raises [ZeroDivisionError] without
    writing a checkpoint. *)
Theorem empty_loader_divides_by_zero
    (train_loader val_loader : DataLoader Sample) (epochs : nat) (base_lr : Q) :
  (forall e s,
     loader_len val_loader = 0 ->
     exists t,
       epoch_body train_loader val_loader epochs base_lr e s
       = (t, inl Py.ZeroDivisionError) /\
       filter is_storage t = [] /\
       (loader_len train_loader <> 0 ->
        length (printed_train_averages t) = 1 /\ printed_val_averages t = [])) /\
  (forall e s,
     loader_len train_loader = 0 ->
     exists t,
       training_phase train_loader epochs base_lr e s
       = (t, inl Py.ZeroDivisionError) /\
       epoch_body train_loader val_loader epochs base_lr e s
       = (t, inl Py.ZeroDivisionError) /\
       filter is_storage t = []) /\
  (forall model mode,
     0 < epochs ->
     loader_len val_loader = 0 ->
     exists t,
       train_model train_loader val_loader epochs base_lr model mode
       = (t, inl Py.ZeroDivisionError) /\
       filter is_storage t = []) /\
  (forall (x : Py.num) (ld : DataLoader Sample),
     (exists avg, Py.truediv x (Py.PyInt (Z.of_nat (loader_len ld))) = inr avg)
     <-> loader_len ld <> 0) /\
  (forall (x : Py.num) (ld : DataLoader Sample),
     Py.truediv x (Py.PyInt (Z.of_nat (loader_len ld))) = inl Py.ZeroDivisionError
     <-> dataset ld = []) /\
  (forall (A : Type) (data : list A),
     length data < 10 -> snd (data_split data) = []) /\
  (forall (data : list Sample) (size : positive) (shuffled : bool),
     length data < 10 ->
     loader_len {| dataset := snd (data_split data);
                   batch_size := size; shuffle := shuffled |} = 0) /\
  (forall model (prompts answers : list string) (images : list Image),
     length prompts = length answers ->
     length answers = length images ->
     0 < length prompts < 10 ->
     exists t,
       main model prompts answers images = (t, inl Py.ZeroDivisionError) /\
       filter is_storage t = []).
Proof.
  assert (Small : forall (A : Type) (data : list A),
            length data < 10 -> snd (data_split data) = []).
  { intros A data Hlt. rewrite data_split_snd.
    rewrite (Nat.div_small (length data) 10 Hlt), Nat.sub_0_r.
    apply skipn_all. }
  split_ands.
  - intros e s Hv. apply epoch_body_val_empty, Hv.
  - intros e s Ht. apply epoch_body_train_empty, Ht.
  - intros model mode He Hv. unfold train_model.
    destruct epochs as [|k]; [inversion He|].
    rewrite <- cons_seq.
    apply (epochs_run_val_empty train_loader (S k) base_lr val_loader Hv).
  - intros x ld. rewrite truediv_len. destruct (loader_len ld =? 0) eqn:E.
    + apply Nat.eqb_eq in E. split; [intros [avg H]; discriminate|].
      intros H. contradiction.
    + apply Nat.eqb_neq in E. split; [intros _; exact E|].
      intros _. eexists. reflexivity.
  - intros x ld. rewrite truediv_len, <- loader_len_zero.
    destruct (loader_len ld =? 0) eqn:E.
    + apply Nat.eqb_eq in E. split; [intros _; exact E|reflexivity].
    + apply Nat.eqb_neq in E. split; [discriminate|]. intros H. contradiction.
  - exact Small.
  - intros data size shuffled Hlt. apply loader_len_zero. cbn [dataset].
    apply Small, Hlt.
  - intros model prompts answers images Epa Eai [Hpos Hlt].
    assert (Main : main model prompts answers images
              = match from_dict (fst (data_split prompts)) (fst (data_split answers))
                                (fst (data_split images)),
                      from_dict (snd (data_split prompts)) (snd (data_split answers))
                                (snd (data_split images)) with
                | inr train_dataset, inr val_dataset =>
                    train_model
                      {| dataset := GrabberDataset train_dataset;
                         batch_size := 1; shuffle := true |}
                      {| dataset := GrabberDataset val_dataset;
                         batch_size := 1; shuffle := false |}
                      3 (1 # 1000000) model false
                | inl e, _ => ([], inl e)
                | _, inl e => ([], inl e)
                end) by reflexivity.
    rewrite Main.
    rewrite (Small _ prompts Hlt), (Small _ answers), (Small _ images) by lia.
    unfold from_dict at 2. cbn [length Nat.eqb andb combine].
    unfold from_dict.
    rewrite !(proj1 (data_split_lengths _)), <- Eai, <- Epa, !Nat.eqb_refl.
    cbn [andb]. unfold train_model. cbn [seq].
    apply epochs_run_val_empty. reflexivity.
Qed.

(** C7: the script splits the three sequences once, builds the two
    datasets and loaders from the parts and only then calls
    [train_model]; in every epoch the forward passes of the training
    phase run over the batches of the training loader and those of the
    validation phase over the batches of the validation loader; the
    samples a loader yields in an epoch are a rearrangement of its
    dataset, the same samples in every epoch, and a loader that does not
    shuffle yields its dataset in order, the same batches every epoch. *)
Theorem split_fixed_before_training
    (model : Params) (prompts answers : list string) (images : list Image) :
  main model prompts answers images
  = match from_dict (fst (data_split prompts)) (fst (data_split answers))
                    (fst (data_split images)),
          from_dict (snd (data_split prompts)) (snd (data_split answers))
                    (snd (data_split images)) with
    | inr train_dataset, inr val_dataset =>
        train_model
          {| dataset := GrabberDataset train_dataset;
             batch_size := 1; shuffle := true |}
          {| dataset := GrabberDataset val_dataset;
             batch_size := 1; shuffle := false |}
          3 (1 # 1000000) model false
    | inl e, _ => ([], inl e)
    | _, inl e => ([], inl e)
    end /\
  (forall (train_loader val_loader : DataLoader Sample) epochs base_lr epoch s,
     filter is_forward
       (trace_of (training_phase train_loader epochs base_lr epoch s))
     = val_events (map collate_fn (loader_iter epoch train_loader)) /\
     filter is_forward (trace_of (validation_phase val_loader epoch s))
     = val_events (map collate_fn (loader_iter epoch val_loader))) /\
  (forall (ld : DataLoader Sample) e,
     Permutation (concat (loader_iter e ld)) (dataset ld)) /\
  (forall (ld : DataLoader Sample) e e',
     Permutation (concat (loader_iter e ld)) (concat (loader_iter e' ld))) /\
  (forall (ld : DataLoader Sample) e,
     shuffle ld = false ->
     loader_iter e ld = loader_iter 0 ld /\
     concat (loader_iter e ld) = dataset ld).
Proof.
  split_ands.
  - reflexivity.
  - intros train_loader val_loader epochs base_lr epoch s. split.
    + rewrite training_phase_run.
      pose proof (train_trace_forward train_loader epochs base_lr
                    (map collate_fn (loader_iter epoch train_loader)) 0
                    (with_training true s)) as F.
      destruct (Py.truediv _ _) as [e|avg]; unfold trace_of; cbn [fst];
        change (EvModelTrain :: ?x) with ([EvModelTrain] ++ x);
        rewrite ?filter_app, F; cbn; now rewrite ?app_nil_r.
    + rewrite validation_phase_run.
      pose proof (val_events_forward
                    (map collate_fn (loader_iter epoch val_loader))) as F.
      destruct (Py.truediv _ _) as [e|avg]; unfold trace_of; cbn [fst];
        rewrite ?filter_app, F; cbn; now rewrite ?app_nil_r.
  - intros ld e. apply loader_iter_samples.
  - intros ld e e'.
    eapply Permutation_trans; [apply loader_iter_samples|].
    apply Permutation_sym, loader_iter_samples.
  - intros ld e Hs. split.
    + unfold loader_iter. now rewrite Hs.
    + now apply loader_iter_samples.
Qed.

(** C8: the label tensor of every forward pass, in training and in
    validation, is the output of the text-only tokenizer on the answers of
    the batch, as it is: row by row the tokens of the answer followed by
    the pad token up to the longest row.  A position past the tokens of
    its row holds the pad token and a position within them the token;
    when the pad token is not the ignored index, no padded position holds
    the ignored index.  The loss of the step is the forward pass on these
    labels. *)
Theorem labels_are_padded_tokenizer_output
    (train_loader : DataLoader Sample) (epochs : nat) (base_lr : Q) :
  (forall i b s,
     forward_labels (trace_of (train_step train_loader epochs base_lr i b s))
     = [tokenizer (snd b)]) /\
  (forall b s, forward_labels (trace_of (val_step b s)) = [tokenizer (snd b)]) /\
  (forall b s,
     batch_loss b s
     = forward (params s) (training s) (input_ids (fst b)) (pixel_values (fst b))
               (tokenizer (snd b))) /\
  (forall answers,
     tokenizer answers
     = map (fun a => tokenize a
                     ++ repeat pad_token_id
                          (longest (map tokenize answers) - length (tokenize a)))
           answers) /\
  (forall answers r a c,
     nth_error answers r = Some a ->
     exists row,
       nth_error (tokenizer answers) r = Some row /\
       (c < length (tokenize a) -> nth_error row c = nth_error (tokenize a) c) /\
       (length (tokenize a) <= c < longest (map tokenize answers) ->
        nth_error row c = Some pad_token_id /\
        (pad_token_id <> ignore_index -> nth_error row c <> Some ignore_index))).
Proof.
  assert (Tok : forall answers,
            tokenizer answers
            = map (fun a => tokenize a
                     ++ repeat pad_token_id
                          (longest (map tokenize answers) - length (tokenize a)))
                  answers).
  { intros answers. unfold tokenizer. cbv zeta. now rewrite map_map. }
  split_ands.
  - intros i b s. rewrite train_step_run. unfold trace_of, forward_labels.
    cbn [fst]. rewrite !flat_map_app. cbn [flat_map app].
    rewrite (flat_map_nil _ (if (i mod 200 =? 0)%Z then _ else _)).
    + reflexivity.
    + destruct (i mod 200 =? 0)%Z; [|constructor].
      eapply Forall_impl; [|apply batch_diagnostic_events].
      intros e He. destruct e; try discriminate; reflexivity.
  - intros b s. now rewrite val_step_run.
  - reflexivity.
  - exact Tok.
  - intros answers r a c Ha. eexists. split.
    + rewrite Tok. apply map_nth_error. exact Ha.
    + split.
      * intros Hc. now apply nth_error_app1.
      * intros [Hc1 Hc2].
        assert (E : nth_error
                      (tokenize a
                       ++ repeat pad_token_id
                            (longest (map tokenize answers) - length (tokenize a))) c
                    = Some pad_token_id).
        { rewrite nth_error_app2 by exact Hc1.
          apply nth_error_repeat. lia. }
        split; [exact E|]. intros Hp. rewrite E. congruence.
Qed.

End Claims.

(** * The script on concrete data *)

Section Concrete.
Import Toy.

(** Ten samples: nine for training, the last one for validation. *)
Example split_of_ten :
  data_split (seq 0 10) = ([0; 1; 2; 3; 4; 5; 6; 7; 8], [9]).
Proof. reflexivity. Qed.

(** Nine samples: the validation part is empty. *)
Example split_of_nine :
  data_split (seq 0 9) = ([0; 1; 2; 3; 4; 5; 6; 7; 8], []).
Proof. reflexivity. Qed.

(** Three columns of ten rows are cut at the same index. *)
Lemma data_split_alignment_witness :
  let prompts := repeat "<CAP>"%string 10 in
  let answers := map str (seq 0 10) in
  let images := seq 100 10 in
  length prompts = length answers /\
  length answers = length images /\
  from_dict (snd (data_split prompts)) (snd (data_split answers))
            (snd (data_split images))
  = inr [("<CAP>"%string, "9"%string, 109)].
Proof.
  intros prompts answers images.
  split; [reflexivity|]. split; [reflexivity|].
  exact (proj2 (proj2 (proj2 (proj2
           (data_split_alignment nat prompts answers images
              eq_refl eq_refl))))).
Defined.

(** Two epochs over two training batches: four steps, and a rate of zero
    after the fourth. *)
Lemma linear_schedule_reaches_zero_witness :
  let train_loader := Toy.loader 2 true in
  let val_loader := Toy.loader 1 false in
  0 < 2 /\
  loader_len train_loader <> 0 /\
  loader_len val_loader <> 0 /\
  (0 < rate)%Q /\
  exists t s',
    train_model train_loader val_loader 2 rate 5%Z false = (t, inr (tt, s')) /\
    optimizer_rates t = map (scheduled_lr rate 0 4) [0; 1; 2; 3] /\
    last_epoch s' = 4 /\
    (lr s' == 0)%Q.
Proof.
  intros train_loader val_loader.
  assert (H1 : 0 < 2) by (constructor; constructor).
  assert (H2 : loader_len train_loader <> 0) by (vm_compute; discriminate).
  assert (H3 : loader_len val_loader <> 0) by (vm_compute; discriminate).
  assert (H4 : (0 < rate)%Q) by reflexivity.
  split; [exact H1|]. split; [exact H2|]. split; [exact H3|]. split; [exact H4|].
  destruct (linear_schedule_reaches_zero train_loader val_loader 2 rate 5%Z false
              H1 H2 H3 H4) as (_ & _ & _ & _ & _ & t & s' & E & Rt & L & Z0).
  exists t, s'. split; [exact E|]. split; [exact Rt|]. split; [exact L|exact Z0].
Defined.

(** One epoch over one training batch: one optimizer step and the one
    directory of epoch 1. *)
Lemma one_checkpoint_per_epoch_witness :
  let train_loader := Toy.loader 1 true in
  let val_loader := Toy.loader 1 false in
  loader_len train_loader <> 0 /\
  loader_len val_loader <> 0 /\
  exists t s',
    train_model train_loader val_loader 1 rate 5%Z false = (t, inr (tt, s')) /\
    length (optimizer_rates t) = 1 /\
    checkpoint_dirs t = ["./model_checkpoints/epoch_1"%string].
Proof.
  intros train_loader val_loader.
  assert (H2 : loader_len train_loader <> 0) by (vm_compute; discriminate).
  assert (H3 : loader_len val_loader <> 0) by (vm_compute; discriminate).
  split; [exact H2|]. split; [exact H3|].
  destruct (one_checkpoint_per_epoch train_loader val_loader 1 rate 5%Z false
              H2 H3) as ((t & s' & saved & E & _ & _ & _ & _ & One) & _).
  exists t, s'. split; [exact E|]. exact (One eq_refl eq_refl).
Defined.

(** The same run, computed: what is written is the directory, the model
    and the processor of epoch 1. *)
Example one_epoch_one_batch_run :
  let r := train_model (Toy.loader 1 true) (Toy.loader 1 false) 1 rate 5%Z false in
  filter is_storage (trace_of r)
  = [EvMakedirs "./model_checkpoints/epoch_1" true;
     EvSaveModel "./model_checkpoints/epoch_1" 4%Z;
     EvSaveProcessor "./model_checkpoints/epoch_1"] /\
  optimizer_rates (trace_of r) = [scheduled_lr rate 0 1 0].
Proof. split; reflexivity. Qed.

(** One training batch and no validation batch: the optimizer has stepped,
    the training average is printed, the run raises and nothing is
    written. *)
Example empty_validation_run :
  let r := train_model (Toy.loader 1 true) (Toy.loader 0 false) 1 rate 5%Z false in
  snd r = inl Py.ZeroDivisionError /\
  filter is_storage (trace_of r) = [] /\
  length (optimizer_rates (trace_of r)) = 1 /\
  length (printed_train_averages (trace_of r)) = 1 /\
  printed_val_averages (trace_of r) = [].
Proof. repeat split; reflexivity. Qed.

(** Losses 7, 6 and 5 over three batches: the average printed is 6. *)
Example scripted_average :
  let r := training_phase (Toy.loader 3 true) 1 rate 0 (initial_state (Toy.loader 3 true) 1 rate 5%Z false) in
  train_losses (Toy.loader 3 true) 1 rate 0
    (map collate_fn (loader_iter 0 (Toy.loader 3 true)))
    (with_training true (initial_state (Toy.loader 3 true) 1 rate 5%Z false))
  = [7%float; 6%float; 5%float] /\
  printed_train_averages (trace_of r) = [6%float].
Proof. split; reflexivity. Qed.

(** Index 0 runs the diagnostic, index 1 does not. *)
Example diagnostic_at_0_not_at_1 :
  let s := initial_state (Toy.loader 2 true) 1 rate 5%Z false in
  let b := collate_fn [Toy.sample 0] in
  existsb is_diagnostic (trace_of (train_step (Toy.loader 2 true) 1 rate 0 b s)) = true /\
  existsb is_diagnostic (trace_of (train_step (Toy.loader 2 true) 1 rate 1 b s)) = false /\
  existsb is_diagnostic (trace_of (train_step (Toy.loader 2 true) 1 rate 200 b s)) = true /\
  existsb is_diagnostic (trace_of (train_step (Toy.loader 2 true) 1 rate 199 b s)) = false.
Proof. repeat split; reflexivity. Qed.

(** Two answers of two and one characters: the shorter row ends with the
    pad token. *)
Example padded_labels :
  tokenizer ["ab"%string; "c"%string] = [[97; 98]; [99; 1]]%Z.
Proof. reflexivity. Qed.

End Concrete.

(** * Further properties *)

(** ** The sizes of the split *)

Lemma length_nil_iff {A} (l : list A) : length l = 0 <-> l = [].
Proof. destruct l; split; intros H; try reflexivity; discriminate. Qed.

(** X1: the validation part is not empty exactly from ten elements on; the
    training part is empty only for an empty input; the training part has
    at least nine times and less than nine times plus ten the elements of
    the validation part; below ten elements the training part is the
    whole input. *)
Theorem data_split_sizes (A : Type) (data : list A) :
  let train := fst (data_split data) in
  let val := snd (data_split data) in
  (val <> [] <-> 10 <= length data) /\
  (train = [] <-> data = []) /\
  9 * length val <= length train < 9 * length val + 10 /\
  (length data < 10 -> train = data /\ val = []).
Proof.
  intros train val.
  destruct (data_split_lengths data) as [Lt Lv]. fold train in Lt. fold val in Lv.
  pose proof (Nat.div_mod_eq (length data) 10) as D.
  pose proof (Nat.mod_upper_bound (length data) 10 ltac:(lia)) as U.
  split; [|split; [|split]].
  - rewrite <- length_nil_iff, Lv. split; intros H.
    + destruct (Nat.le_gt_cases 10 (length data)) as [G|G]; [exact G|].
      rewrite Nat.div_small in H by exact G. now contradiction H.
    + lia.
  - rewrite <- !length_nil_iff, Lt. lia.
  - rewrite Lt, Lv. lia.
  - intros Hlt. rewrite <- (length_nil_iff val), Lv, (Nat.div_small _ _ Hlt).
    split; [|reflexivity].
    unfold train. rewrite data_split_fst, (Nat.div_small _ _ Hlt), Nat.sub_0_r.
    apply firstn_all.
Qed.

(** X2: the split looks at positions only: splitting the images of a list
    under a function gives the images of the parts. *)
Theorem data_split_map (A B : Type) (f : A -> B) (data : list A) :
  data_split (map f data)
  = (map f (fst (data_split data)), map f (snd (data_split data))).
Proof.
  unfold data_split, slice_to, slice_from. cbn [fst snd].
  now rewrite length_map, firstn_map, skipn_map.
Qed.

(** ** An epoch, case by case *)

Section EpochFacts.
Context {M : Model} {P : Processor} {O : Optimizer} {R : Sampler Sample}.
Variables train_loader val_loader : DataLoader Sample.
Variable epochs : nat.
Variable base_lr : Q.

Lemma epoch_body_cases (epoch : nat) (s : St) :
  let n := num_training_steps train_loader epochs in
  let bs := map collate_fn (loader_iter epoch train_loader) in
  let vbs := map collate_fn (loader_iter epoch val_loader) in
  let s2 := with_training false (after_updates base_lr n bs (with_training true s)) in
  let T := concat (per_batch_traces train_loader epochs base_lr 0 bs
                     (with_training true s)) in
  let losses := train_losses train_loader epochs base_lr 0 bs (with_training true s) in
  let vlosses := val_losses vbs (with_grad_enabled false s2) in
  let avg_train := average (Py.sum (map Py.PyFloat losses)) (loader_len train_loader) in
  let avg_val := average (Py.sum (map Py.PyFloat vlosses)) (loader_len val_loader) in
  epoch_body train_loader val_loader epochs base_lr epoch s
  = if loader_len train_loader =? 0
    then (EvModelTrain :: T, inl Py.ZeroDivisionError)
    else if loader_len val_loader =? 0
    then (EvModelTrain :: T ++ [EvPrintAvgTrain avg_train] ++ validation_events vbs,
          inl Py.ZeroDivisionError)
    else (EvModelTrain :: T ++ [EvPrintAvgTrain avg_train] ++ validation_events vbs
            ++ [EvPrintAvgVal avg_val] ++ checkpoint_events epoch (params s2),
          inr (tt, s2)).
Proof.
  intros n bs vbs s2 T losses vlosses avg_train avg_val. unfold epoch_body.
  pose proof (training_phase_run train_loader epochs base_lr epoch s) as E1.
  cbv zeta in E1. fold bs in E1. fold T in E1. fold losses in E1. fold n in E1.
  rewrite truediv_len in E1.
  destruct (loader_len train_loader =? 0).
  - now rewrite (bind_raise _ _ _ _ _ E1).
  - rewrite (bind_run _ _ _ _ _ _ E1).
    pose proof (validation_phase_run val_loader epoch
                  (after_updates base_lr n bs (with_training true s))) as E2.
    cbv zeta in E2. fold vbs in E2. fold s2 in E2. fold vlosses in E2.
    rewrite truediv_len in E2.
    destruct (loader_len val_loader =? 0).
    + rewrite (bind_raise _ _ _ _ _ E2). cbn [fst snd].
      unfold validation_events. cbn [app]. now rewrite <- !app_assoc.
    + rewrite (bind_run _ _ _ _ _ _ E2), save_checkpoint_run. cbn [fst snd].
      unfold validation_events, avg_train, avg_val, average.
      cbn [app]. now rewrite <- !app_assoc.
Qed.

(** A property of traces that the empty trace has and that concatenation
    keeps holds of a loop when it holds of every pass. *)
Lemma for_each_trace {A} (Q : list Event -> Prop) (body : A -> Run unit) :
  Q [] ->
  (forall t1 t2, Q t1 -> Q t2 -> Q (t1 ++ t2)) ->
  (forall x s, Q (fst (body x s))) ->
  forall l s, Q (fst (for_each l body s)).
Proof.
  intros Q0 Qapp Qb. induction l as [|x l IH]; intros s; [exact Q0|].
  cbn [for_each]. unfold bind. specialize (Qb x s).
  destruct (body x s) as [t1 [e|[u s1]]]; [exact Qb|].
  specialize (IH s1). destruct (for_each l body s1) as [t2 r].
  cbn [fst] in *. now apply Qapp.
Qed.

End EpochFacts.

(** ** More about the training loop *)

Section LoopFacts.
Context {M : Model} {P : Processor} {O : Optimizer}.
Variable train_loader : DataLoader Sample.
Variable epochs : nat.
Variable base_lr : Q.

Lemma pairs_ground_truths (hw : nat * nat) (l : list (string * string)) :
  printed_ground_truths
    (flat_map (fun ta : string * string =>
       [EvPostProcess (fst ta) task hw; EvPrintGT (snd ta);
        EvPrintPred (post_process_generation (fst ta) task hw task)]) l)
  = map snd l.
Proof.
  induction l as [|x l IH]; [reflexivity|].
  cbn [flat_map map]. unfold printed_ground_truths in *.
  rewrite flat_map_app, IH. reflexivity.
Qed.

Lemma pairs_predictions (hw : nat * nat) (l : list (string * string)) :
  printed_predictions
    (flat_map (fun ta : string * string =>
       [EvPostProcess (fst ta) task hw; EvPrintGT (snd ta);
        EvPrintPred (post_process_generation (fst ta) task hw task)]) l)
  = map (fun ta => post_process_generation (fst ta) task hw task) l.
Proof.
  induction l as [|x l IH]; [reflexivity|].
  cbn [flat_map map]. unfold printed_predictions in *.
  rewrite flat_map_app, IH. reflexivity.
Qed.

Lemma combine_snd {A B} (l1 : list A) : forall (l2 : list B),
  map snd (combine l1 l2) = firstn (length l1) l2.
Proof.
  induction l1 as [|a l1 IH]; intros [|b l2]; try reflexivity.
  cbn. now rewrite IH.
Qed.

Lemma combine_fst {A B} (l1 : list A) : forall (l2 : list B),
  map fst (combine l1 l2) = firstn (length l2) l1.
Proof.
  induction l1 as [|a l1 IH]; intros [|b l2]; try reflexivity.
  cbn. now rewrite IH.
Qed.

Lemma diagnostic_no_cycle (b : Batch) (s : St) :
  filter is_cycle (batch_diagnostic b s) = [] /\
  optimizer_rates (batch_diagnostic b s) = [] /\
  filter is_generate (batch_diagnostic b s)
  = [EvGenerate (input_ids (fst b)) (pixel_values (fst b)) 1024 3].
Proof.
  pose proof (batch_diagnostic_events b s) as F.
  split; [|split].
  - apply filter_nil. eapply Forall_impl; [|exact F].
    intros e He. destruct e; try discriminate; reflexivity.
  - apply flat_map_nil. eapply Forall_impl; [|exact F].
    intros e He. destruct e; try discriminate; reflexivity.
  - unfold batch_diagnostic, diagnostic_events.
    rewrite filter_app. cbn [filter is_generate app]. f_equal.
    apply filter_nil. induction (combine _ _) as [|x l IH]; [constructor|].
    cbn [flat_map app]. repeat constructor. exact IH.
Qed.

Lemma train_step_cycle (i : Z) (b : Batch) (s : St) :
  let t := trace_of (train_step train_loader epochs base_lr i b s) in
  filter is_cycle t = update_block (lr s) /\
  optimizer_rates t = [lr s] /\
  length (filter is_generate t) = if (i mod 200 =? 0)%Z then 1 else 0.
Proof.
  intros t. unfold t. rewrite train_step_run. unfold trace_of. cbn [fst].
  destruct (diagnostic_no_cycle b s) as (C & Rt & G).
  unfold optimizer_rates in *.
  rewrite !filter_app, !flat_map_app.
  destruct (i mod 200 =? 0)%Z.
  - rewrite C, Rt, G. repeat split; reflexivity.
  - repeat split; reflexivity.
Qed.

Lemma train_trace_cycle (bs : list Batch) : forall j (s : St),
  let t := concat (per_batch_traces train_loader epochs base_lr j bs s) in
  filter is_cycle t = flat_map update_block (optimizer_rates t) /\
  length (optimizer_rates t) = length bs.
Proof.
  induction bs as [|b bs IH]; intros j s; [split; reflexivity|].
  cbn [per_batch_traces concat length]. cbv zeta.
  destruct (train_step_cycle (Z.of_nat j) b s) as (C & Rt & _).
  destruct (IH (S j) (state_after s
              (train_step train_loader epochs base_lr (Z.of_nat j) b s)))
    as [C' L'].
  unfold optimizer_rates in *.
  rewrite filter_app, !flat_map_app, C, C', Rt, length_app, L'.
  split; [|reflexivity]. cbn [flat_map]. now rewrite app_nil_r.
Qed.

Lemma seq_0_cons (n : nat) : n <> 0 -> seq 0 n = 0 :: seq 1 (n - 1).
Proof. destruct n; [contradiction|]. intros _. cbn. now rewrite Nat.sub_0_r. Qed.

Lemma ceil200_step (m : nat) :
  (m + 200) / 200 = (m + 199) / 200 + (if m mod 200 =? 0 then 1 else 0).
Proof.
  pose proof (Nat.div_mod_eq m 200) as D.
  pose proof (Nat.mod_upper_bound m 200 ltac:(lia)) as U.
  set (q := m / 200) in *. set (r := m mod 200) in *.
  replace (m + 200) with (r + (q + 1) * 200) by lia.
  rewrite Nat.div_add by lia. rewrite (Nat.div_small r) by lia.
  destruct (r =? 0) eqn:E; [apply Nat.eqb_eq in E|apply Nat.eqb_neq in E].
  - replace (m + 199) with (199 + q * 200) by lia.
    rewrite Nat.div_add by lia. rewrite (Nat.div_small 199) by lia. lia.
  - replace (m + 199) with ((r - 1) + (q + 1) * 200) by lia.
    rewrite Nat.div_add by lia. rewrite (Nat.div_small (r - 1)) by lia. lia.
Qed.

Lemma train_trace_generations (bs : list Batch) : forall j (s : St),
  length (filter is_generate
            (concat (per_batch_traces train_loader epochs base_lr j bs s)))
  + (j + 199) / 200
  = (j + length bs + 199) / 200.
Proof.
  induction bs as [|b bs IH]; intros j s.
  - cbn [per_batch_traces concat filter length]. now rewrite Nat.add_0_r.
  - cbn [per_batch_traces concat length].
    destruct (train_step_cycle (Z.of_nat j) b s) as (_ & _ & G).
    rewrite filter_app, length_app, G.
    specialize (IH (S j) (state_after s
                  (train_step train_loader epochs base_lr (Z.of_nat j) b s))).
    replace (S j + 199) with (j + 200) in IH by lia.
    replace (S j + length bs + 199) with (j + S (length bs) + 199) in IH by lia.
    rewrite (ceil200_step j) in IH.
    replace (Z.of_nat j mod 200 =? 0)%Z with (j mod 200 =? 0).
    + lia.
    + change 200%Z with (Z.of_nat 200). rewrite <- Nat2Z.inj_mod.
      destruct (j mod 200 =? 0) eqn:E; symmetry.
      * apply Nat.eqb_eq in E. apply Z.eqb_eq. lia.
      * apply Nat.eqb_neq in E. apply Z.eqb_neq. lia.
Qed.

Lemma after_updates_app (l1 l2 : list Batch) : forall (n : nat) (s : St),
  after_updates base_lr n (l1 ++ l2) s
  = after_updates base_lr n l2 (after_updates base_lr n l1 s).
Proof.
  induction l1 as [|b l1 IH]; intros n s; [reflexivity|].
  cbn [app after_updates]. apply IH.
Qed.

Lemma after_updates_grads (l : list Batch) : forall (n : nat) (s : St),
  grads s = no_grads -> grads (after_updates base_lr n l s) = no_grads.
Proof.
  induction l as [|b l IH]; intros n s Hs; [exact Hs|].
  cbn [after_updates]. apply IH. reflexivity.
Qed.

Lemma firstn_S_nth {A} (l : list A) : forall j x,
  nth_error l j = Some x -> firstn (S j) l = firstn j l ++ [x].
Proof.
  induction l as [|a l IH]; intros [|j] x H; try discriminate.
  - cbn in H. inversion H. now destruct l.
  - cbn [nth_error] in H. cbn [firstn app]. f_equal. now apply IH.
Qed.

Lemma per_batch_traces_at (bs : list Batch) : forall j0 (s : St) j b,
  nth_error bs j = Some b ->
  nth_error (per_batch_traces train_loader epochs base_lr j0 bs s) j
  = Some (trace_of
            (train_step train_loader epochs base_lr (Z.of_nat (j0 + j)) b
               (after_updates base_lr (num_training_steps train_loader epochs)
                  (firstn j bs) s))).
Proof.
  induction bs as [|a bs IH]; intros j0 s [|j] b H; try discriminate.
  - cbn in H. inversion H. subst. cbn. now rewrite Nat.add_0_r.
  - cbn [nth_error] in H. cbn [per_batch_traces nth_error firstn after_updates].
    rewrite train_step_state, (IH (S j0) _ j b H).
    do 4 f_equal. lia.
Qed.

Lemma val_losses_map (bs : list Batch) (s : St) :
  val_losses bs s = map (fun b => item (batch_loss b s)) bs.
Proof.
  induction bs as [|b bs IH]; [reflexivity|].
  cbn [val_losses map]. rewrite val_step_run. cbn [snd]. now rewrite IH.
Qed.

End LoopFacts.

(** ** Extras about batches and the diagnostic *)

Section BatchExtras.
Context {M : Model} {P : Processor} {O : Optimizer} {R : Sampler Sample}.

Lemma chunks_one {A} : forall fuel (l : list A),
  length l <= fuel -> chunks fuel 1 l = map (fun x => [x]) l.
Proof.
  induction fuel as [|fuel IH]; intros [|a l] Hl; try reflexivity.
  - cbn in Hl. lia.
  - cbn [chunks map firstn skipn]. f_equal. apply IH. cbn in Hl. lia.
Qed.

Lemma tokenizer_single (a : string) : tokenizer [a] = [tokenize a].
Proof.
  unfold tokenizer, pad_to, longest. cbn [map fold_right].
  now rewrite Nat.max_0_r, Nat.sub_diag, app_nil_r.
Qed.

(** X3: with a batch size of one, as in the script, every batch a loader
    yields holds one sample of its dataset; its answers are that sample's
    answer and its label tensor is the one row of that answer's tokens,
    with no pad token added. *)
Theorem single_sample_batches (ld : DataLoader Sample) (epoch : nat) :
  batch_size ld = 1%positive ->
  length (loader_iter epoch ld) = length (dataset ld) /\
  forall b,
    In b (map collate_fn (loader_iter epoch ld)) ->
    exists x,
      In x (dataset ld) /\
      b = collate_fn [x] /\
      snd b = [snd (fst x)] /\
      tokenizer (snd b) = [tokenize (snd (fst x))].
Proof.
  intros Hb. split.
  - rewrite loader_iter_length. unfold loader_len. rewrite Hb.
    change (Pos.to_nat 1) with 1. rewrite Nat.div_1_r. lia.
  - intros b Hin. apply in_map_iff in Hin. destruct Hin as (c & Ec & Hc).
    unfold loader_iter in Hc. rewrite Hb in Hc.
    change (Pos.to_nat 1) with 1 in Hc.
    rewrite chunks_one in Hc by lia.
    apply in_map_iff in Hc. destruct Hc as (x & Ex & Hx).
    exists x. subst c b. split_ands.
    + destruct (shuffle ld); [|exact Hx].
      eapply Permutation_in; [apply randperm_perm|exact Hx].
    + reflexivity.
    + reflexivity.
    + apply tokenizer_single.
Qed.

(** X4: the diagnostic pairs the decoded texts with the answers of the
    batch as [zip] does: it prints one ground truth and one prediction per
    pair, the ground truths being the first answers, as many as there are
    decoded texts, and the predictions the captions of the first texts, as
    many as there are answers. *)
Theorem diagnostic_prints_zip (b : Batch) (s : St) :
  let ids := generate (params s) (training s) (input_ids (fst b))
                      (pixel_values (fst b)) 1024 3 in
  let texts := batch_decode ids false in
  let hw := shape_hw (pixel_values (fst b)) in
  printed_ground_truths (batch_diagnostic b s)
  = firstn (length texts) (snd b) /\
  printed_predictions (batch_diagnostic b s)
  = map (fun text => post_process_generation text task hw task)
        (firstn (length (snd b)) texts) /\
  length (printed_ground_truths (batch_diagnostic b s))
  = Nat.min (length texts) (length (snd b)).
Proof.
  intros ids texts hw.
  assert (G : printed_ground_truths (batch_diagnostic b s)
              = firstn (length texts) (snd b)).
  { unfold batch_diagnostic, diagnostic_events. fold ids. fold texts. fold hw.
    unfold printed_ground_truths at 1. rewrite flat_map_app. cbn [flat_map app].
    fold (printed_ground_truths
            (flat_map (fun ta : string * string =>
               [EvPostProcess (fst ta) task hw; EvPrintGT (snd ta);
                EvPrintPred (post_process_generation (fst ta) task hw task)])
               (combine texts (snd b)))).
    now rewrite pairs_ground_truths, combine_snd. }
  split_ands.
  - exact G.
  - unfold batch_diagnostic, diagnostic_events. fold ids. fold texts. fold hw.
    unfold printed_predictions at 1. rewrite flat_map_app. cbn [flat_map app].
    fold (printed_predictions
            (flat_map (fun ta : string * string =>
               [EvPostProcess (fst ta) task hw; EvPrintGT (snd ta);
                EvPrintPred (post_process_generation (fst ta) task hw task)])
               (combine texts (snd b)))).
    rewrite pairs_predictions, <- (combine_fst texts (snd b)).
    now rewrite map_map.
  - rewrite G. apply length_firstn.
Qed.

(** X5: a training phase over [L] batches runs the generation of the
    diagnostic [ceil(L / 200)] times. *)
Theorem diagnostics_per_epoch
    (train_loader : DataLoader Sample) (epochs : nat) (base_lr : Q)
    (epoch : nat) (s : St) :
  length (filter is_generate
            (trace_of (training_phase train_loader epochs base_lr epoch s)))
  = (loader_len train_loader + 199) / 200.
Proof.
  rewrite training_phase_run.
  pose proof (train_trace_generations train_loader epochs base_lr
                (map collate_fn (loader_iter epoch train_loader)) 0
                (with_training true s)) as G.
  rewrite length_map, loader_iter_length in G.
  change ((0 + 199) / 200) with 0 in G. rewrite Nat.add_0_r in G. cbn [Nat.add] in G.
  destruct (Py.truediv _ _) as [e|avg]; unfold trace_of; cbn [fst];
    change (EvModelTrain :: ?x) with ([EvModelTrain] ++ x);
    rewrite ?filter_app, ?length_app; cbn [filter is_generate length];
    rewrite ?Nat.add_0_r; exact G.
Qed.

End BatchExtras.

(** ** Extras about epochs and runs *)

Section RunExtras.
Context {M : Model} {P : Processor} {O : Optimizer} {R : Sampler Sample}.
Variables train_loader val_loader : DataLoader Sample.
Variable epochs : nat.
Variable base_lr : Q.

Lemma cycles_app (t1 t2 : list Event) :
  cycles_in_blocks t1 -> cycles_in_blocks t2 -> cycles_in_blocks (t1 ++ t2).
Proof.
  unfold cycles_in_blocks, optimizer_rates. intros H1 H2.
  now rewrite filter_app, !flat_map_app, H1, H2.
Qed.

Lemma cycles_validation (vbs : list Batch) :
  cycles_in_blocks (validation_events vbs).
Proof.
  unfold cycles_in_blocks, validation_events.
  destruct (val_events_no_update vbs) as [_ Rv].
  unfold optimizer_rates in *. rewrite !filter_app, !flat_map_app, Rv.
  rewrite (filter_nil is_cycle (val_events vbs)); [reflexivity|].
  unfold val_events. apply Forall_map, Forall_forall. reflexivity.
Qed.

Lemma cycles_epoch (epoch : nat) (s : St) :
  cycles_in_blocks
    (fst (epoch_body train_loader val_loader epochs base_lr epoch s)).
Proof.
  rewrite epoch_body_cases.
  pose proof (proj1 (train_trace_cycle train_loader epochs base_lr
                (map collate_fn (loader_iter epoch train_loader)) 0
                (with_training true s))) as T.
  pose proof (cycles_validation (map collate_fn (loader_iter epoch val_loader))) as V.
  destruct (loader_len train_loader =? 0); [|destruct (loader_len val_loader =? 0)];
    cbn [fst]; change (EvModelTrain :: ?x) with ([EvModelTrain] ++ x);
    repeat (apply cycles_app; try assumption); reflexivity.
Qed.

(** X6: in every run, complete or not, backward passes, optimizer steps,
    scheduler steps and gradient resets occur only in blocks of the four
    in this order, one block per optimizer step. *)
Theorem updates_come_in_blocks (model : Params) (mode : bool) :
  let t := trace_of (train_model train_loader val_loader epochs base_lr model mode) in
  filter is_cycle t = flat_map update_block (optimizer_rates t).
Proof.
  unfold train_model, trace_of.
  apply (for_each_trace cycles_in_blocks).
  - reflexivity.
  - apply cycles_app.
  - apply cycles_epoch.
Qed.

(** X7: a run completes exactly when it has no epoch to run or both
    loaders are not empty.  Otherwise it raises [ZeroDivisionError] in its
    first epoch: after one optimizer step per training batch, without a
    checkpoint. *)
Theorem run_outcome (model : Params) (mode : bool) :
  let r := train_model train_loader val_loader epochs base_lr model mode in
  ((exists s', snd r = inr (tt, s'))
   <-> epochs = 0 \/ (loader_len train_loader <> 0 /\ loader_len val_loader <> 0)) /\
  (forall e,
     snd r = inl e ->
     e = Py.ZeroDivisionError /\
     filter is_storage (trace_of r) = [] /\
     length (optimizer_rates (trace_of r)) = loader_len train_loader).
Proof.
  intros r. unfold r, train_model, trace_of.
  set (s0 := initial_state train_loader epochs base_lr model mode).
  destruct (Nat.eq_dec epochs 0) as [E0|E0].
  { assert (Sq : seq 0 epochs = []) by (now rewrite E0). rewrite Sq.
    cbn. split; [|intros e H; discriminate].
    split; [intros _; now left|intros _; now exists s0]. }
  pose proof (seq_0_cons epochs E0) as Sq.
  destruct (Nat.eq_dec (loader_len train_loader) 0) as [Ht|Ht];
    [|destruct (Nat.eq_dec (loader_len val_loader) 0) as [Hv|Hv]].
  - (* no training batch *)
    assert (E : for_each (seq 0 epochs)
                  (epoch_body train_loader val_loader epochs base_lr) s0
                = ([EvModelTrain], inl Py.ZeroDivisionError)).
    { rewrite Sq. cbn [for_each].
      pose proof (epoch_body_cases train_loader val_loader epochs base_lr 0 s0) as C.
      cbv zeta in C. rewrite Ht in C. cbn [Nat.eqb] in C.
      assert (B : map collate_fn (loader_iter 0 train_loader) = []).
      { apply length_nil_iff. now rewrite length_map, loader_iter_length. }
      rewrite B in C. cbn [per_batch_traces concat] in C.
      now rewrite (bind_raise _ _ _ _ _ C). }
    rewrite E. cbn [fst snd]. split.
    + split; [intros [s' H]; discriminate|].
      intros [H|[H _]]; [lia|contradiction].
    + intros e H. inversion H. now rewrite Ht.
  - (* no validation batch *)
    pose proof (epoch_body_cases train_loader val_loader epochs base_lr 0 s0) as C.
    cbv zeta in C. rewrite Hv in C.
    destruct (loader_len train_loader =? 0) eqn:Z1;
      [apply Nat.eqb_eq in Z1; contradiction|].
    cbn [Nat.eqb] in C.
    rewrite Sq. cbn [for_each].
    rewrite (bind_raise _ _ _ _ _ C). cbn [fst snd]. split.
    + split; [intros [s' H]; discriminate|].
      intros [H|[_ H]]; [lia|contradiction].
    + intros e H. inversion H. split; [reflexivity|].
      set (bs := map collate_fn (loader_iter 0 train_loader)).
      pose proof (train_trace_events train_loader epochs base_lr bs 0
                    (with_training true s0)) as Ft.
      destruct (loop_events_not_stored _ Ft) as [St1 _].
      pose proof (val_trace_events (map collate_fn (loader_iter 0 val_loader))) as Fv.
      destruct (loop_events_not_stored _ Fv) as [St2 _].
      destruct (val_events_no_update (map collate_fn (loader_iter 0 val_loader)))
        as [_ Rv].
      destruct (train_trace_cycle train_loader epochs base_lr bs 0
                  (with_training true s0)) as [_ L].
      unfold validation_events.
      change (EvModelTrain :: ?x) with ([EvModelTrain] ++ x).
      split.
      * rewrite !filter_app, St1, St2. reflexivity.
      * rewrite !optimizer_rates_app, !length_app, Rv, L.
        unfold bs. rewrite length_map, loader_iter_length. cbn. lia.
  - (* both loaders have batches *)
    assert (H0 : on_schedule base_lr (num_training_steps train_loader epochs) s0)
      by reflexivity.
    destruct (epochs_run_ok train_loader epochs base_lr val_loader Ht Hv
                (seq 0 epochs) s0 H0) as (t & s' & saved & E & _).
    rewrite E. cbn [fst snd]. split.
    + split; [intros _; right; now split|intros _; now exists s'].
    + intros e H. discriminate.
Qed.

(** X8: an epoch that completes saves the parameters its validation loss
    was computed with: the validation forward passes run in eval mode on
    the parameters left by the last update of the epoch, and the
    checkpoint holds these parameters. *)
Theorem checkpoint_holds_validated_parameters (epoch : nat) (s : St) :
  loader_len train_loader <> 0 ->
  loader_len val_loader <> 0 ->
  let n := num_training_steps train_loader epochs in
  let bs := map collate_fn (loader_iter epoch train_loader) in
  let vbs := map collate_fn (loader_iter epoch val_loader) in
  exists t s',
    epoch_body train_loader val_loader epochs base_lr epoch s = (t, inr (tt, s')) /\
    params s' = params (after_updates base_lr n bs (with_training true s)) /\
    saved_params t = [params s'] /\
    printed_val_averages t
    = [average
         (Py.sum (map Py.PyFloat
            (map (fun b : Batch =>
                    item (forward (params s') false (input_ids (fst b))
                            (pixel_values (fst b)) (tokenizer (snd b))))
                 vbs)))
         (loader_len val_loader)].
Proof.
  intros Ht Hv n bs vbs.
  pose proof (epoch_body_cases train_loader val_loader epochs base_lr epoch s) as C.
  cbv zeta in C. fold n bs vbs in C.
  destruct (loader_len train_loader =? 0) eqn:Z1;
    [apply Nat.eqb_eq in Z1; contradiction|].
  destruct (loader_len val_loader =? 0) eqn:Z2;
    [apply Nat.eqb_eq in Z2; contradiction|].
  eexists. eexists. split; [exact C|].
  set (s2 := with_training false (after_updates base_lr n bs (with_training true s))).
  pose proof (train_trace_events train_loader epochs base_lr bs 0
                (with_training true s)) as Ft.
  pose proof (val_trace_events vbs) as Fv.
  assert (Quiet : forall t, Forall (fun e => is_loop_event e = true) t ->
            saved_params t = [] /\ printed_val_averages t = []).
  { intros t F. split; apply flat_map_nil; (eapply Forall_impl; [|exact F]);
      intros e He; destruct e; try discriminate; reflexivity. }
  destruct (Quiet _ Ft) as [S1 A1]. destruct (Quiet _ Fv) as [S2 A2].
  unfold validation_events.
  change (EvModelTrain :: ?x) with ([EvModelTrain] ++ x).
  unfold saved_params, printed_val_averages in *.
  split_ands.
  - reflexivity.
  - rewrite !flat_map_app, S1, S2. reflexivity.
  - rewrite !flat_map_app, A1, A2, val_losses_map. reflexivity.
Qed.

End RunExtras.

(** ** Extras about steps and the script *)

Section ScriptExtras.
Context {M : Model} {P : Processor} {O : Optimizer} {R : Sampler Sample}.

(** X10: in a training phase entered with cleared gradients, the step on
    batch [j] starts from the state left by the updates of the batches
    before it: in train mode (so the forward pass and the generation of
    the diagnostic run in train mode), with cleared gradients and with
    [j] more scheduler steps; its update therefore uses the gradient of
    the loss of batch [j] alone. *)
Theorem training_step_invariant
    (train_loader : DataLoader Sample) (epochs : nat) (base_lr : Q)
    (epoch : nat) (s0 : St) (j : nat) (b : Batch) :
  grads s0 = no_grads ->
  nth_error (map collate_fn (loader_iter epoch train_loader)) j = Some b ->
  let n := num_training_steps train_loader epochs in
  let bs := map collate_fn (loader_iter epoch train_loader) in
  let sj := after_updates base_lr n (firstn j bs) (with_training true s0) in
  nth_error (per_batch_traces train_loader epochs base_lr 0 bs (with_training true s0)) j
  = Some (trace_of (train_step train_loader epochs base_lr (Z.of_nat j) b sj)) /\
  training sj = true /\
  grads sj = no_grads /\
  grad_enabled sj = grad_enabled s0 /\
  last_epoch sj = last_epoch s0 + j /\
  batch_loss b sj
  = forward (params sj) true (input_ids (fst b)) (pixel_values (fst b))
            (tokenizer (snd b)) /\
  after_updates base_lr n (firstn (S j) bs) (with_training true s0)
  = after_update base_lr n (batch_loss b sj) sj /\
  params (after_update base_lr n (batch_loss b sj) sj)
  = fst (adamw_step (lr sj) (params sj)
           (accumulate no_grads (gradient (batch_loss b sj))) (opt_state sj)).
Proof.
  intros Hg Hb n bs sj. fold bs in Hb.
  destruct (after_updates_fields train_loader epochs base_lr (firstn j bs)
              (with_training true s0)) as (L & T & G).
  fold n in L, T, G. fold sj in L, T, G.
  assert (Hj : j < length bs) by (apply nth_error_Some; congruence).
  assert (Gr : grads sj = no_grads)
    by (apply after_updates_grads; exact Hg).
  split_ands.
  - rewrite (per_batch_traces_at train_loader epochs base_lr bs 0 _ j b Hb).
    reflexivity.
  - exact T.
  - exact Gr.
  - exact G.
  - rewrite L, length_firstn. cbn [last_epoch with_training]. lia.
  - unfold batch_loss. now rewrite T.
  - rewrite (firstn_S_nth bs j b Hb), after_updates_app. reflexivity.
  - unfold after_update. cbn [params]. now rewrite Gr.
Qed.

Lemma epochs_run_flags
    (train_loader val_loader : DataLoader Sample) (epochs : nat) (base_lr : Q) :
  loader_len train_loader <> 0 ->
  loader_len val_loader <> 0 ->
  forall (l : list nat) (s s' : St) t,
  for_each l (epoch_body train_loader val_loader epochs base_lr) s
  = (t, inr (tt, s')) ->
  grad_enabled s' = grad_enabled s /\
  (l <> [] -> training s' = false).
Proof.
  intros Ht Hv. induction l as [|e l IH]; intros s s' t E.
  - cbn in E. inversion E. split; [reflexivity|]. intros H. now contradiction H.
  - cbn [for_each] in E.
    pose proof (epoch_body_cases train_loader val_loader epochs base_lr e s) as C.
    cbv zeta in C.
    destruct (loader_len train_loader =? 0) eqn:Z1;
      [apply Nat.eqb_eq in Z1; contradiction|].
    destruct (loader_len val_loader =? 0) eqn:Z2;
      [apply Nat.eqb_eq in Z2; contradiction|].
    rewrite (bind_run _ _ _ _ _ _ C) in E.
    set (s2 := with_training false
                 (after_updates base_lr (num_training_steps train_loader epochs)
                    (map collate_fn (loader_iter e train_loader))
                    (with_training true s))) in *.
    destruct (for_each l (epoch_body train_loader val_loader epochs base_lr) s2)
      as [t2 r2] eqn:E2.
    cbn [fst snd] in E. inversion E. subst r2.
    destruct (IH s2 s' t2 E2) as [G Tr].
    destruct (after_updates_fields train_loader epochs base_lr
                (map collate_fn (loader_iter e train_loader))
                (with_training true s)) as (_ & _ & G2).
    split.
    + rewrite G. unfold s2. cbn [grad_enabled with_training]. now rewrite G2.
    + intros _. destruct l as [|e' l'].
      * cbn in E2. inversion E2. reflexivity.
      * apply Tr. discriminate.
Qed.

Lemma loader_len_one (ld : DataLoader Sample) :
  batch_size ld = 1%positive -> loader_len ld = length (dataset ld).
Proof.
  intros Hb. unfold loader_len. rewrite Hb. change (Pos.to_nat 1) with 1.
  rewrite Nat.div_1_r. lia.
Qed.

Lemma main_unfold (model : Params) (prompts answers : list string)
    (images : list Image) :
  main model prompts answers images
  = match from_dict (fst (data_split prompts)) (fst (data_split answers))
                    (fst (data_split images)),
          from_dict (snd (data_split prompts)) (snd (data_split answers))
                    (snd (data_split images)) with
    | inr train_dataset, inr val_dataset =>
        train_model
          {| dataset := GrabberDataset train_dataset;
             batch_size := 1; shuffle := true |}
          {| dataset := GrabberDataset val_dataset;
             batch_size := 1; shuffle := false |}
          3 (1 # 1000000) model false
    | inl e, _ => ([], inl e)
    | _, inl e => ([], inl e)
    end.
Proof. reflexivity. Qed.

(** X9: on three sequences of one length of at least ten the script runs
    to the end: three epochs with one optimizer step per training sample
    each, the three checkpoints of epochs 1 to 3, a final rate of zero,
    and the model left in eval mode with gradient tracking on. *)
Theorem script_completes (model : Params) (prompts answers : list string)
    (images : list Image) :
  length prompts = length answers ->
  length answers = length images ->
  10 <= length prompts ->
  exists t s',
    main model prompts answers images = (t, inr (tt, s')) /\
    checkpoint_dirs t
    = ["./model_checkpoints/epoch_1"; "./model_checkpoints/epoch_2";
       "./model_checkpoints/epoch_3"]%string /\
    length (optimizer_rates t) = 3 * (length prompts - length prompts / 10) /\
    last_epoch s' = 3 * (length prompts - length prompts / 10) /\
    (lr s' == 0)%Q /\
    training s' = false /\
    grad_enabled s' = true.
Proof.
  intros Epa Eai Hn.
  set (k := length prompts - length prompts / 10).
  destruct (data_split_lengths prompts) as [Lp Vp].
  destruct (data_split_lengths answers) as [La Va].
  destruct (data_split_lengths images) as [Li Vi].
  rewrite <- Eai, <- Epa in Li, Vi. rewrite <- Epa in La, Va. fold k in Lp, La, Li.
  rewrite main_unfold. unfold from_dict.
  rewrite Lp, La, Li, Vp, Va, Vi, !Nat.eqb_refl. cbn [andb].
  set (train_loader := {| dataset := GrabberDataset _; batch_size := 1;
                          shuffle := true |}).
  set (val_loader := {| dataset := GrabberDataset _; batch_size := 1;
                        shuffle := false |}).
  pose proof (Nat.div_le_lower_bound (length prompts) 10 1 ltac:(lia) ltac:(lia)) as Hv1.
  pose proof (div10_le (length prompts)) as Hle.
  pose proof (Nat.div_lt (length prompts) 10 ltac:(lia) ltac:(lia)) as Hlt.
  assert (Lt : loader_len (A:=Sample) train_loader = k).
  { rewrite loader_len_one by reflexivity.
    unfold train_loader, GrabberDataset, Sample. cbn [dataset].
    rewrite !length_combine, Lp, La, Li. lia. }
  assert (Lv : loader_len (A:=Sample) val_loader = length prompts / 10).
  { rewrite loader_len_one by reflexivity.
    unfold val_loader, GrabberDataset, Sample. cbn [dataset].
    rewrite !length_combine, Vp, Va, Vi. lia. }
  assert (Ht : loader_len (A:=Sample) train_loader <> 0)
    by (rewrite Lt; unfold k; lia).
  assert (Hv : loader_len (A:=Sample) val_loader <> 0) by (rewrite Lv; lia).
  unfold train_model.
  set (s0 := initial_state train_loader 3 (1 # 1000000) model false).
  assert (H0 : on_schedule (1 # 1000000) (num_training_steps train_loader 3) s0)
    by reflexivity.
  destruct (epochs_run_ok train_loader 3 (1 # 1000000) val_loader Ht Hv
              (seq 0 3) s0 H0)
    as (t & s' & saved & E & Hs' & L & Rt & Cd & _ & _).
  destruct (epochs_run_flags train_loader val_loader 3 (1 # 1000000) Ht Hv
              (seq 0 3) s0 s' t E) as [G Tr].
  exists t, s'. split; [exact E|].
  rewrite length_seq in L, Rt. cbn [last_epoch s0 initial_state] in L, Rt.
  rewrite Lt in L, Rt. cbn [Nat.add] in L.
  split_ands.
  - rewrite Cd. reflexivity.
  - rewrite Rt. now rewrite length_map, length_seq.
  - exact L.
  - rewrite Hs', L.
    replace (num_training_steps train_loader 3) with (3 * k)
      by (unfold num_training_steps; now rewrite Lt).
    apply scheduled_lr_end. unfold k. lia.
  - apply Tr. discriminate.
  - rewrite G. reflexivity.
Qed.

(** X11: when the three sequences do not have one length, building a
    dataset fails and the script raises before any training. *)
Theorem script_rejects_ragged_columns (model : Params)
    (prompts answers : list string) (images : list Image) :
  length prompts <> length answers \/ length answers <> length images ->
  main model prompts answers images = ([], inl Py.ArrowInvalid).
Proof.
  intros Hne.
  destruct (data_split_lengths prompts) as [Lp Vp].
  destruct (data_split_lengths answers) as [La Va].
  destruct (data_split_lengths images) as [Li Vi].
  pose proof (div10_le (length prompts)) as Hp.
  pose proof (div10_le (length answers)) as Ha.
  pose proof (div10_le (length images)) as Hi.
  rewrite main_unfold. unfold from_dict.
  destruct ((length (fst (data_split prompts)) =? length (fst (data_split answers)))
            && (length (fst (data_split answers)) =? length (fst (data_split images))))
    eqn:B1; [|reflexivity].
  destruct ((length (snd (data_split prompts)) =? length (snd (data_split answers)))
            && (length (snd (data_split answers)) =? length (snd (data_split images))))
    eqn:B2; [|reflexivity].
  exfalso.
  apply andb_true_iff in B1. destruct B1 as [B1 B1'].
  apply andb_true_iff in B2. destruct B2 as [B2 B2'].
  apply Nat.eqb_eq in B1, B1', B2, B2'. lia.
Qed.

End ScriptExtras.

(** ** The further properties on concrete data *)

Section ConcreteExtras.
Import Toy.

(** Two samples, batch size one, the reversed order of an odd epoch: two
    batches. *)
Lemma single_sample_batches_witness :
  batch_size (Toy.loader 2 true) = 1%positive /\
  length (loader_iter 1 (Toy.loader 2 true)) = 2.
Proof.
  split; [reflexivity|].
  exact (proj1 (single_sample_batches (Toy.loader 2 true) 1 eq_refl)).
Defined.

(** One epoch over two training batches and one validation batch. *)
Lemma checkpoint_holds_validated_parameters_witness :
  let train_loader := Toy.loader 2 true in
  let val_loader := Toy.loader 1 false in
  let s := initial_state train_loader 1 rate 5%Z false in
  loader_len train_loader <> 0 /\
  loader_len val_loader <> 0 /\
  exists t s',
    epoch_body train_loader val_loader 1 rate 0 s = (t, inr (tt, s')) /\
    saved_params t = [params s'].
Proof.
  intros train_loader val_loader s.
  assert (H1 : loader_len train_loader <> 0) by (vm_compute; discriminate).
  assert (H2 : loader_len val_loader <> 0) by (vm_compute; discriminate).
  split; [exact H1|]. split; [exact H2|].
  destruct (checkpoint_holds_validated_parameters train_loader val_loader 1 rate
              0 s H1 H2) as (t & s' & E & _ & Sv & _).
  exists t, s'. split; [exact E|exact Sv].
Defined.

(** Ten samples: nine training steps in each of three epochs. *)
Lemma script_completes_witness :
  let prompts := repeat "<CAP>"%string 10 in
  let answers := map str (seq 0 10) in
  let images := seq 100 10 in
  length prompts = length answers /\
  length answers = length images /\
  10 <= length prompts /\
  exists t s',
    main 5%Z prompts answers images = (t, inr (tt, s')) /\
    length (optimizer_rates t) = 27 /\
    last_epoch s' = 27.
Proof.
  intros prompts answers images.
  assert (H3 : 10 <= length prompts) by apply le_n.
  split; [reflexivity|]. split; [reflexivity|]. split; [exact H3|].
  destruct (script_completes (M:=Toy.model) (P:=Toy.processor) 5%Z prompts answers images
              eq_refl eq_refl H3)
    as (t & s' & E & _ & Rt & L & _).
  exists t, s'. split; [exact E|]. split; [exact Rt|exact L].
Defined.

(** The second batch of an epoch over two. *)
Lemma training_step_invariant_witness :
  let train_loader := Toy.loader 2 true in
  let s0 := initial_state train_loader 1 rate 5%Z false in
  let b := collate_fn [Toy.sample 1] in
  grads s0 = no_grads /\
  nth_error (map collate_fn (loader_iter 0 train_loader)) 1 = Some b /\
  training (after_updates rate 2 [collate_fn [Toy.sample 0]] (with_training true s0))
  = true.
Proof.
  intros train_loader s0 b.
  split; [reflexivity|]. split; [reflexivity|].
  exact (proj1 (proj2 (training_step_invariant train_loader 1 rate 0 s0 1 b
                         eq_refl eq_refl))).
Defined.

(** Two prompts and one answer. *)
Lemma script_rejects_ragged_columns_witness :
  let prompts := ["<CAP>"; "<CAP>"]%string in
  let answers := ["a"]%string in
  let images := [1; 2] in
  (length prompts <> length answers \/ length answers <> length images) /\
  main 5%Z prompts answers images = ([], inl Py.ArrowInvalid).
Proof.
  intros prompts answers images.
  assert (H : length prompts <> length answers \/ length answers <> length images)
    by (left; discriminate).
  split; [exact H|].
  exact (script_rejects_ragged_columns (M:=Toy.model) (P:=Toy.processor) 5%Z
           prompts answers images H).
Defined.

End ConcreteExtras.
